(** * Language descriptors of coala: registry, parser and version algebra

    A shallow embedding of [coalib/bearlib/languages/Language.py] and of
    [coalib/bearlib/aspects/base.py], and the properties of the
    specification stated over it.

    Conventions of the embedding.
    - Python text is a [string] of ASCII characters; [str.lower], [\s] and
      the whitespace of [str.rsplit] are the ASCII parts of the Unicode
      definitions.
    - A Python [int] is a [Z].  A Python [float] is a binary64 number; it
      is kept by its exact decimal value (every binary64 number has one),
      or is an infinity or a NaN.  Comparison, [int()] and membership are
      exact on these values, as they are in Python.  [float()] and a float
      literal round the decimal that is written to the nearest binary64
      number, and [str()] of a float is its shortest text that reads back.
    - A function that may raise returns a [result]; the exception carries
      the Python class and what the message reports.
    - Instances are first described as values (record [Language]); section
      "object store" then places them in a heap, with attribute assignment,
      to speak about identity and mutation. *)

From Stdlib Require Import ZArith NArith List String Ascii Lia.
From stdpp Require Import base option list gmap strings.

Local Open Scope string_scope.
Local Open Scope Z_scope.

(** ** Exceptions and results *)

Inductive exn : Type :=
| ValueError_no_versions_left          (* ValueError('No versions left') *)
| ValueError_float (s : string)        (* could not convert string to float: s *)
| ValueError_int_of_nan                (* cannot convert float NaN to integer *)
| OverflowError_int_of_inf             (* cannot convert float infinity to integer *)
| AttributeError (msg : string)
| AssertionError
| TypeError (msg : string)
| KeyError (key : string)
| Unmodelled (what : string).          (* no exception of Python: the program
                                          does what the model leaves out *)

Inductive result (A : Type) : Type :=
| Ok (a : A)
| Raise (e : exn).
Arguments Ok {A} a.
Arguments Raise {A} e.

#[global] Instance result_ret : MRet result := fun A a => Ok a.

#[global] Instance result_bind : MBind result := fun A B f r =>
  match r with
  | Ok a => f a
  | Raise e => Raise e
  end.

(** [[f(x) for x in l]] and [[x for x in l if f(x)]], left to right; the
    first exception ends the comprehension. *)
Fixpoint map_r {A B} (f : A -> result B) (l : list A) : result (list B) :=
  match l with
  | [] => Ok []
  | x :: l' => y ← f x; ys ← map_r f l'; Ok (y :: ys)
  end.

Fixpoint filter_r {A} (f : A -> result bool) (l : list A) : result (list A) :=
  match l with
  | [] => Ok []
  | x :: l' =>
      b ← f x; ys ← filter_r f l'; Ok (if (b : bool) then x :: ys else ys)
  end.

(** ** Text *)

Definition chars := list ascii.

(** [str.isspace] on ASCII: tab to carriage return, the four separators
    0x1c to 0x1f, and the blank. *)
Definition is_space (c : ascii) : bool :=
  let n := N_of_ascii c in
  ((9 <=? n) && (n <=? 13) || (28 <=? n) && (n <=? 32))%N.

Definition is_comma (c : ascii) : bool := (N_of_ascii c =? 44)%N.

Definition lower_char (c : ascii) : ascii :=
  let n := N_of_ascii c in
  if ((65 <=? n) && (n <=? 90))%N then ascii_of_N (n + 32) else c.

(** [str.lower] *)
Fixpoint lower (s : string) : string :=
  match s with
  | EmptyString => EmptyString
  | String c s' => String (lower_char c) (lower s')
  end.

(** [re.split(r',\s*', s)], as its first piece and the pieces after it.
    [skip] holds while the white space that follows a comma is consumed. *)
Fixpoint re_split_from (skip : bool) (s : string) : string * list string :=
  match s with
  | EmptyString => (EmptyString, [])
  | String c s' =>
      if skip && is_space c then re_split_from true s'
      else if is_comma c then
        (EmptyString, let '(t, ts) := re_split_from true s' in t :: ts)
      else
        let '(t, ts) := re_split_from false s' in (String c t, ts)
  end.

Definition re_split (s : string) : string * list string :=
  re_split_from false s.

Fixpoint dropwhile (p : ascii -> bool) (l : chars) : chars :=
  match l with
  | c :: l' => if p c then dropwhile p l' else l
  | [] => []
  end.

Definition drop_space : chars -> chars := dropwhile is_space.

(** The longest prefix free of white space, and what follows it. *)
Fixpoint span_word (l : chars) : chars * chars :=
  match l with
  | c :: l' =>
      if is_space c then ([], l)
      else let '(w, r) := span_word l' in (c :: w, r)
  | [] => ([], [])
  end.

(** [s.rsplit(maxsplit=1)]: white space at the end is skipped, the last word
    is cut off, the white space before it is skipped, and what is left, if
    anything, comes first (it keeps its leading white space). *)
Definition rsplit1 (s : string) : list string :=
  match drop_space (rev (list_ascii_of_string s)) with
  | [] => []
  | l =>
      let '(w, r) := span_word l in
      let word := string_of_list_ascii (rev w) in
      match drop_space r with
      | [] => [word]
      | r' => [string_of_list_ascii (rev r'); word]
      end
  end.

(** The white space that [float()] drops around a literal: C's [isspace]. *)
Definition is_cspace (c : ascii) : bool :=
  let n := N_of_ascii c in
  ((9 <=? n) && (n <=? 13) || (n =? 32))%N.

Definition strip (l : chars) : chars :=
  rev (dropwhile is_cspace (rev (dropwhile is_cspace l))).

(** [sep.join(l)] *)
Definition join (sep : string) (l : list string) : string :=
  String.concat sep l.


(** ** Numbers *)

(** A float: a finite decimal [(-1)^neg * m / 10^k] (the sign is kept apart,
    so that [-0.0] exists), an infinity, or a NaN. *)
Inductive pyfloat : Type :=
| Finite (neg : bool) (m : N) (k : nat)
| Inf (neg : bool)
| NaN.

(** A version number or a limit: an [int] or a [float]. *)
Inductive number : Type :=
| PyInt (z : Z)
| PyFloat (f : pyfloat).

(** [isinstance(limit, int)] *)
Definition is_int (n : number) : bool :=
  match n with
  | PyInt _ => true
  | PyFloat _ => false
  end.

Definition signed (neg : bool) (m : N) : Z :=
  if neg then - Z.of_N m else Z.of_N m.

(** The value of a number on the extended line: [XFin a k] is [a / 10^k]. *)
Inductive xval : Type :=
| XNaN
| XNegInf
| XFin (a : Z) (k : nat)
| XPosInf.

Definition value_of (n : number) : xval :=
  match n with
  | PyInt z => XFin z 0
  | PyFloat (Finite neg m k) => XFin (signed neg m) k
  | PyFloat (Inf true) => XNegInf
  | PyFloat (Inf false) => XPosInf
  | PyFloat NaN => XNaN
  end.

(** Exact comparison of two numbers; [None] when one of them is a NaN.
    Python compares an [int] with a [float] by value, without rounding. *)
Definition num_compare (a b : number) : option comparison :=
  match value_of a, value_of b with
  | XNaN, _ | _, XNaN => None
  | XNegInf, XNegInf => Some Eq
  | XNegInf, _ => Some Lt
  | _, XNegInf => Some Gt
  | XPosInf, XPosInf => Some Eq
  | XPosInf, _ => Some Gt
  | _, XPosInf => Some Lt
  | XFin x j, XFin y k => Some (x * 10 ^ Z.of_nat k ?= y * 10 ^ Z.of_nat j)
  end.

(** The six functions of module [operator] that the program passes around. *)
Inductive relop : Type := op_gt | op_lt | op_ge | op_le | op_eq | op_ne.

(** [op(a, b)] on two numbers. *)
Definition operator (op : relop) (a b : number) : bool :=
  match op, num_compare a b with
  | op_ne, Some Eq => false
  | op_ne, _ => true
  | _, None => false
  | op_gt, Some Gt => true
  | op_lt, Some Lt => true
  | op_ge, Some (Gt | Eq) => true
  | op_le, Some (Lt | Eq) => true
  | op_eq, Some Eq => true
  | _, _ => false
  end.

(** [int(v)]: truncation towards zero. *)
Definition py_int (v : number) : result Z :=
  match v with
  | PyInt z => Ok z
  | PyFloat (Finite neg m k) => Ok (Z.quot (signed neg m) (10 ^ Z.of_nat k))
  | PyFloat (Inf _) => Raise OverflowError_int_of_inf
  | PyFloat NaN => Raise ValueError_int_of_nan
  end.

(** [v in versions] on a tuple or list of numbers: [==] on each element.
    Python tests identity before [==]; the two differ for a NaN only, which
    is equal to nothing and identical to itself.  Numbers are values here,
    without identity, and the statements below are about lists without
    NaN. *)
Definition py_in (v : number) (versions : list number) : bool :=
  existsb (operator op_eq v) versions.

(** [sorted(l)]: a stable sort by [<].  Each element is placed before the
    first element of the sorted rest that is not smaller than it.  (With a
    NaN in the list [<] is no order and the result of Python's sort depends
    on its algorithm; the statements below are about lists without NaN.) *)
Fixpoint insort (x : number) (l : list number) : list number :=
  match l with
  | [] => [x]
  | y :: l' => if operator op_lt y x then y :: insort x l' else x :: l
  end.

Definition sorted (l : list number) : list number :=
  foldr insort [] l.
Arguments sorted : simpl never.

(** ** binary64

    [float()] and a float literal give the binary64 number nearest to the
    decimal that is written, ties to the even significand, and an infinity
    beyond the range.  The result is kept by its exact decimal value. *)

(** [p / q] rounded to the nearest integer, ties to the even one, for
    [0 <= p] and [0 < q]. *)
Definition round_half_even (p q : Z) : Z :=
  let n := p / q in
  match 2 * (p mod q) ?= q with
  | Lt => n
  | Gt => n + 1
  | Eq => if Z.even n then n else n + 1
  end.

(** [m / 10^k] written with the least [k]. *)
Fixpoint reduce_decimal (m : N) (k : nat) : N * nat :=
  match k with
  | O => (m, O)
  | S k' => if (m mod 10 =? 0)%N then reduce_decimal (m / 10) k' else (m, k)
  end.

(** The binary64 number nearest to [p / q], for [0 <= p] and [0 < q]: a
    significand [M <= 2^53] times [2^e] with [-1074 <= e], where [e] is the
    least exponent that leaves at most 53 bits before rounding; the numbers
    from [2^1024] on are infinite. *)
Definition binary64_of_ratio (neg : bool) (p q : Z) : pyfloat :=
  if p =? 0 then Finite neg 0 0
  else
    let scale e := if 0 <=? e then (p, q * 2 ^ e) else (p * 2 ^ (- e), q) in
    let e0 := Z.max (Z.log2 p - Z.log2 q - 53) (-1074) in
    let e := let '(p0, q0) := scale e0 in
             if 2 ^ 53 <=? p0 / q0 then e0 + 1 else e0 in
    let '(p1, q1) := scale e in
    let M := round_half_even p1 q1 in
    if 0 <=? e then
      if 2 ^ 1024 <=? M * 2 ^ e then Inf neg
      else Finite neg (Z.to_N (M * 2 ^ e)) 0
    else
      let '(m, k) := reduce_decimal (Z.to_N (M * 5 ^ (- e))) (Z.to_nat (- e)) in
      Finite neg m k.

(** The binary64 number nearest to [m * 10^s]. *)
Definition binary64_of_decimal (neg : bool) (m : N) (s : Z) : pyfloat :=
  if 0 <=? s then binary64_of_ratio neg (Z.of_N m * 10 ^ s) 1
  else binary64_of_ratio neg (Z.of_N m) (10 ^ (- s)).

(** ** [float(s)] and [str(v)] *)

Definition digit_of (c : ascii) : option N :=
  let n := N_of_ascii c in
  if ((48 <=? n) && (n <=? 57))%N then Some (n - 48)%N else None.

Definition is_underscore (c : ascii) : bool := (N_of_ascii c =? 95)%N.

(** What [(["_"] digit)*] reads, and the text left. *)
Fixpoint digitpart_tail (l : chars) : list N * chars :=
  match l with
  | [] => ([], [])
  | c :: l' =>
      match digit_of c with
      | Some d => let '(ds, r) := digitpart_tail l' in (d :: ds, r)
      | None =>
          if is_underscore c then
            match l' with
            | c2 :: l'' =>
                match digit_of c2 with
                | Some d => let '(ds, r) := digitpart_tail l'' in (d :: ds, r)
                | None => ([], l)
                end
            | [] => ([], l)
            end
          else ([], l)
      end
  end.

(** [digitpart ::= digit (["_"] digit)*]; no digit is read from a text that
    does not start with one. *)
Definition digitpart (l : chars) : list N * chars :=
  match l with
  | c :: l' =>
      match digit_of c with
      | Some d => let '(ds, r) := digitpart_tail l' in (d :: ds, r)
      | None => ([], l)
      end
  | [] => ([], [])
  end.

Definition N_of_digits (ds : list N) : N :=
  fold_left (fun acc d => 10 * acc + d)%N ds 0%N.

(** [sign ::= "+" | "-"], optional: whether it was a minus, and the rest. *)
Definition read_sign (l : chars) : bool * chars :=
  match l with
  | c :: l' =>
      if (N_of_ascii c =? 45)%N then (true, l')
      else if (N_of_ascii c =? 43)%N then (false, l')
      else (false, l)
  | [] => (false, [])
  end.

(** [number ::= [digitpart] "." digitpart | digitpart ["."]]: the digits
    before and after the point. *)
Definition read_number (l : chars) : option (list N * list N * chars) :=
  let '(ip, r1) := digitpart l in
  match r1 with
  | c :: r2 =>
      if (N_of_ascii c =? 46)%N then
        let '(fp, r3) := digitpart r2 in
        match ip, fp with
        | [], [] => None
        | _, _ => Some (ip, fp, r3)
        end
      else match ip with [] => None | _ => Some (ip, [], r1) end
  | [] => match ip with [] => None | _ => Some (ip, [], []) end
  end.

(** [exponent ::= ("e" | "E") [sign] digitpart], optional. *)
Definition read_exponent (l : chars) : option (Z * chars) :=
  match l with
  | c :: l' =>
      if (N_of_ascii (lower_char c) =? 101)%N then
        let '(neg, r1) := read_sign l' in
        match digitpart r1 with
        | ([], _) => None
        | (ds, r2) => Some (signed neg (N_of_digits ds), r2)
        end
      else Some (0, l)
  | [] => Some (0, [])
  end.

(** [floatnumber ::= number [exponent]], up to the end of the text. *)
Definition read_floatnumber (neg : bool) (l : chars) : option pyfloat :=
  match read_number l with
  | None => None
  | Some (ip, fp, r1) =>
      match read_exponent r1 with
      | Some (e, []) =>
          let m := N_of_digits (ip ++ fp) in
          let s := e - Z.of_nat (length fp) in
          Some (binary64_of_decimal neg m s)
      | _ => None
      end
  end.

(** [float(s)] for a text [s]: white space around the literal is dropped;
    [inf], [infinity] and [nan] are read in any case of letters. *)
Definition py_float (s : string) : result pyfloat :=
  let '(neg, body) := read_sign (strip (list_ascii_of_string s)) in
  let word := lower (string_of_list_ascii body) in
  if bool_decide (word = "inf" \/ word = "infinity") then Ok (Inf neg)
  else if bool_decide (word = "nan") then Ok NaN
  else match read_floatnumber neg body with
       | Some f => Ok f
       | None => Raise (ValueError_float s)
       end.

Definition digit_char (d : N) : ascii := ascii_of_N (48 + d).

Fixpoint digits_of_uint (u : Decimal.uint) : list N :=
  match u with
  | Decimal.Nil => []
  | Decimal.D0 u' => 0%N :: digits_of_uint u'
  | Decimal.D1 u' => 1%N :: digits_of_uint u'
  | Decimal.D2 u' => 2%N :: digits_of_uint u'
  | Decimal.D3 u' => 3%N :: digits_of_uint u'
  | Decimal.D4 u' => 4%N :: digits_of_uint u'
  | Decimal.D5 u' => 5%N :: digits_of_uint u'
  | Decimal.D6 u' => 6%N :: digits_of_uint u'
  | Decimal.D7 u' => 7%N :: digits_of_uint u'
  | Decimal.D8 u' => 8%N :: digits_of_uint u'
  | Decimal.D9 u' => 9%N :: digits_of_uint u'
  end.

(** The decimal digits of [n], the most significant first; [[0]] for zero. *)
Definition digits_of_N (n : N) : list N := digits_of_uint (N.to_uint n).

Definition text_of_digits (ds : list N) : string :=
  string_of_list_ascii (map digit_char ds).

Fixpoint drop_zeros (ds : list N) : list N :=
  match ds with
  | 0%N :: ds' => drop_zeros ds'
  | _ => ds
  end.

Definition zeros (n : nat) : list N := repeat 0%N n.

(** [str(z)] for an [int]. *)
Definition str_int (z : Z) : string :=
  (if z <? 0 then "-" else EmptyString) ++ text_of_digits (digits_of_N (Z.abs_N z)).

(** The decimal [m / 10^k] in the notation of [repr]: with [ds] its
    significant digits and the value [0.ds * 10^decpt], positional when
    [-4 < decpt <= 16] and with an exponent otherwise. *)
Definition format_decimal (sign : string) (m : N) (k : nat) : string :=
  let all := digits_of_N m in
  let ds := rev (drop_zeros (rev all)) in
  let n := length ds in
  let decpt := Z.of_nat (length all) - Z.of_nat k in
  if (-4 <? decpt) && (decpt <=? 16) then
    if decpt <=? 0 then
      sign ++ "0." ++ text_of_digits (zeros (Z.to_nat (- decpt)) ++ ds)
    else if Z.of_nat n <=? decpt then
      sign ++ text_of_digits (ds ++ zeros (Z.to_nat decpt - n)) ++ ".0"
    else
      sign ++ text_of_digits (take (Z.to_nat decpt) ds) ++ "."
           ++ text_of_digits (drop (Z.to_nat decpt) ds)
  else
    let e := decpt - 1 in
    let etext := text_of_digits (digits_of_N (Z.abs_N e)) in
    sign ++ text_of_digits (take 1 ds)
         ++ (if (1 <? n)%nat then "." ++ text_of_digits (drop 1 ds)
             else EmptyString)
         ++ "e" ++ (if e <? 0 then "-" else "+")
         ++ (if (String.length etext <? 2)%nat then "0" else EmptyString) ++ etext.

(** The value [c * 10^s] as a decimal [m / 10^k]. *)
Definition decimal_of (c : N) (s : Z) : N * nat :=
  if 0 <=? s then (c * 10 ^ Z.to_N s, O)%N
  else reduce_decimal c (Z.to_nat (- s)).

(** The shortest decimal that [float()] reads back as [m / 10^k], searched
    from [n] significant digits on: of the two decimals of [n] digits
    around the value, the nearer one is tried first (at equal distance the
    one with an even last digit), and where neither reads back a digit is
    added.  Seventeen digits are enough for a binary64 number. *)
Fixpoint shortest_from (fuel n : nat) (m : N) (k : nat) : N * nat :=
  match fuel with
  | O => (m, k)
  | S fuel' =>
      let all := digits_of_N m in
      let L := length all in
      if (L <=? n)%nat then (m, k)
      else
        let lo := N_of_digits (take n all) in
        let rest := N_of_digits (drop n all) in
        let s := Z.of_nat (L - n) - Z.of_nat k in
        let reads c :=
          operator op_eq (PyFloat (binary64_of_decimal false c s))
                         (PyFloat (Finite false m k)) in
        let up := match (2 * rest ?= 10 ^ N.of_nat (L - n))%N with
                  | Lt => false
                  | Gt => true
                  | Eq => N.odd lo
                  end in
        let first := if up then (lo + 1)%N else lo in
        let second := if up then lo else (lo + 1)%N in
        if reads first then decimal_of first s
        else if reads second then decimal_of second s
        else shortest_from fuel' (S n) m k
  end.

(** [str(f)] for a [float], the short [repr]. *)
Definition str_float (f : pyfloat) : string :=
  match f with
  | NaN => "nan"
  | Inf neg => if neg then "-inf" else "inf"
  | Finite neg m k =>
      let sign := if neg then "-" else EmptyString in
      if (m =? 0)%N then sign ++ "0.0"
      else let '(m', k') := shortest_from 17 1 m k in format_decimal sign m' k'
  end.

(** [str(v)] for a number. *)
Definition str_number (v : number) : string :=
  match v with
  | PyInt z => str_int z
  | PyFloat f => str_float f
  end.

(** Literals: [3] is the [int] 3 and [3.3] the [float] nearest to 3.3. *)
Definition number_of_literal (n : Number.number) : option number :=
  match n with
  | Number.Decimal (Decimal.Decimal i Decimal.Nil) => Some (PyInt (Z.of_int i))
  | Number.Decimal (Decimal.Decimal i f) =>
      let '(neg, u) := match i with
                       | Decimal.Pos u => (false, u)
                       | Decimal.Neg u => (true, u)
                       end in
      Some (PyFloat (binary64_of_decimal neg (N.of_uint (Decimal.app u f))
                                         (- Z.of_nat (Decimal.nb_digits f))))
  | _ => None
  end.

Definition literal_of_number (v : number) : option Number.number :=
  match v with
  | PyInt z => Some (Number.Decimal (Decimal.Decimal (Z.to_int z) Decimal.Nil))
  | PyFloat _ => None
  end.

Declare Scope py_scope.
Delimit Scope py_scope with py.
Number Notation number number_of_literal literal_of_number : py_scope.

(** ** Language classes and instances *)

(** A class [Sub] made by the decorator [Language]: the attributes that the
    program reads.  Two classes made from equal declarations are still two
    classes; [cls_id], the position in [LanguageMeta.all], tells them apart.
    [aliases] has to be declared: the metaclass has no default for it. *)
Record LanguageType : Type := {
  cls_id : nat;
  cls_name : string;               (* __name__ *)
  cls_qualname : string;           (* __qualname__ *)
  cls_aliases : list string;       (* aliases *)
  cls_versions : list number       (* versions, a sorted tuple *)
}.

(** An instance of such a class: its class and its attribute [versions]. *)
Record Language : Type := {
  lang_type : LanguageType;
  versions : list number
}.

(** The class that is decorated: [getattr(arg, 'versions', ())] gives the
    empty tuple when [decl_versions] is [None]. *)
Record declaration : Type := {
  decl_name : string;
  decl_qualname : string;
  decl_aliases : list string;
  decl_versions : option (list number)
}.

(** [LanguageUberMeta.all] *)
Abbreviation registry := (list LanguageType).

(** [Language.__init__(self, *versions)], with the allocation that
    [type.__call__] does before it: the instance of [cls] that results. *)
Definition Language__init__ (cls : LanguageType) (args : list number)
  : result Language :=
  if forallb (fun version => py_in version (cls_versions cls)) args then
    match args with
    | [] => Ok {| lang_type := cls; versions := cls_versions cls |}
    | _ => Ok {| lang_type := cls; versions := sorted args |}
    end
  else Raise AssertionError.

(** [LanguageMeta.__call__(cls, *args)] for [cls is Language]: the decorator.
    The new class is appended to [all] and returned. *)
Definition LanguageMeta__call__Language (all : registry) (args : list declaration)
  : result (LanguageType * registry) :=
  match args with
  | [arg] =>
      let Sub := {| cls_id := length all;
                    cls_name := decl_name arg;
                    cls_qualname := decl_qualname arg;
                    cls_aliases := decl_aliases arg;
                    cls_versions := sorted (default [] (decl_versions arg)) |} in
      Ok (Sub, (all ++ [Sub])%list)
  | _ => Raise AssertionError
  end.

(** [LanguageMeta.__call__(cls, *args)] for a class made by the decorator:
    [super().__call__] on the same arguments, that is, a new instance. *)
Definition LanguageMeta__call__ (cls : LanguageType) (args : list number)
  : result Language :=
  Language__init__ cls args.

(** [Language.__str__] *)
Definition Language__str__ (self : Language) : string :=
  cls_qualname (lang_type self) ++ " "
    ++ join ", " (map str_number (versions self)).

(** What is given to [parse_lang_str], [__contains__] and [__getitem__]: a
    text or an instance. *)
Inductive item : Type :=
| Text (s : string)
| Instance (l : Language).
Coercion Text : string >-> item.

(** [str(x)] *)
Definition py_str (x : item) : string :=
  match x with
  | Text s => s
  | Instance l => Language__str__ l
  end.

(** [parse_lang_str(string)], [text] being its argument.  The assignment
    [name, version = name.rsplit(maxsplit=1)] binds [name] as soon as
    [rsplit] yields two parts, before [float(version)] is tried; the [except]
    clause then leaves it as it is.  When [rsplit] yields fewer parts the
    assignment raises [ValueError] and binds nothing. *)
Definition parse_lang_str (text : item) : result (string * list number) :=
  let '(name, str_versions) := re_split (py_str text) in
  versions ← map_r (fun s => f ← py_float s; Ok (PyFloat f)) str_versions;
  match rsplit1 name with
  | [name'; version] =>
      match py_float version with
      | Ok f => Ok (name', PyFloat f :: versions)
      | Raise _ => Ok (name', versions)
      end
  | _ => Ok (name, versions)
  end.

Definition is_nil {A} (l : list A) : bool :=
  match l with [] => true | _ => false end.

(** The names a class answers to: [map(str.lower, chain(cls.aliases,
    [cls.__qualname__, cls.__name__]))]. *)
Definition names_of (cls : LanguageType) : list string :=
  map lower (cls_aliases cls ++ [cls_qualname cls; cls_name cls]).

(** [LanguageMeta.__contains__(cls, item)] *)
Definition LanguageMeta__contains__ (cls : LanguageType) (item : item)
  : result bool :=
  '(name, versions) ← parse_lang_str item;
  Ok (existsb (String.eqb (lower name)) (names_of cls)
      && (is_nil versions
          || forallb (fun version => py_in version (cls_versions cls)) versions)).

(** [next(lang for lang in all if item in lang)]; [StopIteration] becomes
    [AttributeError]. *)
Fixpoint first_containing (all : registry) (item : item) : result LanguageType :=
  match all with
  | [] => Raise (AttributeError EmptyString)
  | lang :: rest =>
      b ← LanguageMeta__contains__ lang item;
      if (b : bool) then Ok lang else first_containing rest item
  end.

(** [LanguageMeta.__getattr__(cls, item)]: what [Language.<item>] and
    [getattr(Language, item)] give for a name that is no attribute of the
    class [Language] itself. *)
Definition LanguageMeta__getattr__ (all : registry) (item : string)
  : result LanguageType :=
  first_containing all item.

(** A special name, with two underscores at either end, or [mro].  Under no
    other name has the class [Language] an attribute of its own: what
    [Language] and [LanguageMeta] define and what they inherit from [type]
    and [object] has such a name ([all] is kept in [LanguageUberMeta], out
    of reach of the lookup). *)
Definition special_name (name : string) : bool :=
  String.eqb name "mro"
  || match list_ascii_of_string name, rev (list_ascii_of_string name) with
     | "_" :: "_" :: _, "_" :: "_" :: _ => true
     | _, _ => false
     end%char.

(** [getattr(cls, name)] for [cls is Language].  Ordinary lookup comes
    first and [__getattr__] is called only when it finds nothing.  Under a
    special name it may find an attribute that is no language class, as
    [Language.__name__] or [Language.mro]; the model does not follow the
    program there. *)
Definition py_getattr (all : registry) (name : string) : result LanguageType :=
  if special_name name then Raise (Unmodelled name)
  else LanguageMeta__getattr__ all name.

(** [LanguageMeta.__getitem__(cls, item)]: [Language[item]]. *)
Definition LanguageMeta__getitem__ (all : registry) (item : item)
  : result Language :=
  '(name, versions) ← parse_lang_str item;
  lang ← py_getattr all name;
  LanguageMeta__call__ lang versions.

(** ** Limiting versions *)

(** The operator that Python tries on the right operand when the left one, a
    number, does not know how to compare itself with it. *)
Definition reflected (op : relop) : relop :=
  match op with
  | op_gt => op_lt
  | op_lt => op_gt
  | op_ge => op_le
  | op_le => op_ge
  | op_eq => op_eq
  | op_ne => op_ne
  end.

(** The body of [limit_versions], for a kind [L] of limits of which we know
    whether one is an [int] and how [operator(number, limit)] is decided (its
    truth value, or the exception it raises). *)
Definition limit_versions_with {L : Type}
    (isinstance_int : L -> bool)
    (apply : relop -> number -> L -> result bool)
    (language : Language) (limit : L) (op : relop) : result Language :=
  versions ←
    (if isinstance_int limit then
       filter_r (fun version => i ← py_int version; apply op (PyInt i) limit)
                (versions language)
     else
       filter_r (fun version => apply op version limit) (versions language));
  if is_nil versions then Raise ValueError_no_versions_left
  else LanguageMeta__call__ (lang_type language) versions.

(** [limit_versions(language, limit, operator)] for a number [limit]. *)
Definition limit_versions_number : Language -> number -> relop -> result Language :=
  limit_versions_with is_int (fun op a b => Ok (operator op a b)).

(** A limit: a number, or an instance (as in [a == b] on two instances). *)
Inductive limit : Type :=
| LNum (n : number)
| LLang (other : Language).
Coercion LNum : number >-> limit.

(** [operator(version, limit)].  A number compared with an instance returns
    [NotImplemented], so Python calls the reflected method of the instance,
    [limit_versions(other, version, reflected op)], whose limit is a number;
    the instance it returns is true (the class defines neither [__bool__]
    nor [__len__]). *)
Definition apply_operator (op : relop) (version : number) (limit : limit)
  : result bool :=
  match limit with
  | LNum n => Ok (operator op version n)
  | LLang other =>
      _ ← limit_versions_number other version (reflected op); Ok true
  end.

Definition limit_is_int (limit : limit) : bool :=
  match limit with
  | LNum n => is_int n
  | LLang _ => false
  end.

(** [limit_versions(language, limit, operator)] *)
Definition limit_versions : Language -> limit -> relop -> result Language :=
  limit_versions_with limit_is_int apply_operator.

(** The relational methods of an instance. *)
Definition Language__gt__ (self : Language) (other : limit) := limit_versions self other op_gt.
Definition Language__lt__ (self : Language) (other : limit) := limit_versions self other op_lt.
Definition Language__ge__ (self : Language) (other : limit) := limit_versions self other op_ge.
Definition Language__le__ (self : Language) (other : limit) := limit_versions self other op_le.
Definition Language__eq__ (self : Language) (other : limit) := limit_versions self other op_eq.
Definition Language__ne__ (self : Language) (other : limit) := limit_versions self other op_ne.

(** [self <op> other] on an instance: the method that the operator selects. *)
Definition Language_op (op : relop) : Language -> limit -> result Language :=
  match op with
  | op_gt => Language__gt__
  | op_lt => Language__lt__
  | op_ge => Language__ge__
  | op_le => Language__le__
  | op_eq => Language__eq__
  | op_ne => Language__ne__
  end.

(** The relational methods of a class: [cls() <op> other]. *)
Definition LanguageMeta__gt__ (cls : LanguageType) (other : limit) :=
  self ← LanguageMeta__call__ cls []; Language__gt__ self other.
Definition LanguageMeta__lt__ (cls : LanguageType) (other : limit) :=
  self ← LanguageMeta__call__ cls []; Language__lt__ self other.
Definition LanguageMeta__ge__ (cls : LanguageType) (other : limit) :=
  self ← LanguageMeta__call__ cls []; Language__ge__ self other.
Definition LanguageMeta__le__ (cls : LanguageType) (other : limit) :=
  self ← LanguageMeta__call__ cls []; Language__le__ self other.
Definition LanguageMeta__eq__ (cls : LanguageType) (other : limit) :=
  self ← LanguageMeta__call__ cls []; Language__eq__ self other.
Definition LanguageMeta__ne__ (cls : LanguageType) (other : limit) :=
  self ← LanguageMeta__call__ cls []; Language__ne__ self other.

Definition LanguageMeta_op (op : relop) : LanguageType -> limit -> result Language :=
  match op with
  | op_gt => LanguageMeta__gt__
  | op_lt => LanguageMeta__lt__
  | op_ge => LanguageMeta__ge__
  | op_le => LanguageMeta__le__
  | op_eq => LanguageMeta__eq__
  | op_ne => LanguageMeta__ne__
  end.


(** ** Object store

    Instances as Python has them: objects in a heap, each with its class and
    its [__dict__].  A reference is a position in the heap; an allocation
    appends.  A computation takes a heap and returns a result, or the
    exception raised, and the heap it leaves. *)

Inductive value : Type :=
| VNumber (n : number)
| VText (s : string)
| VSeq (l : list number)          (* a tuple or list of numbers *)
| VRef (r : nat).                 (* another object *)

(** A taste of an aspect class: [taste.cast_type] and [taste.default]. *)
Record taste : Type := {
  cast_type : value -> result value;
  taste_default : value
}.

(** The classes of the objects: a class made by the decorator [Language]
    (its bases are [Language] and the decorated class), or a class derived
    from [aspectbase], with [type(self).tastes] in the order of its items. *)
Inductive pyclass : Type :=
| LanguageSub (cls : LanguageType)
| aspectclass (id : nat) (tastes : list (string * taste)).

Record object : Type := {
  ob_type : pyclass;                 (* type(o) *)
  ob_dict : gmap string value        (* o.__dict__ *)
}.

Abbreviation heap := (list object).

Definition M (A : Type) : Type := heap -> result A * heap.

#[global] Instance M_ret : MRet M := fun A a h => (Ok a, h).

#[global] Instance M_bind : MBind M := fun A B f m h =>
  match m h with
  | (Ok a, h') => f a h'
  | (Raise e, h') => (Raise e, h')
  end.

Definition raise {A} (e : exn) : M A := fun h => (Raise e, h).

Definition lift {A} (r : result A) : M A := fun h => (r, h).

(** [[x for x in l if f(x)]] with effects. *)
Fixpoint filter_m {A} (f : A -> M bool) (l : list A) : M (list A) :=
  match l with
  | [] => mret []
  | x :: l' =>
      b ← f x; ys ← filter_m f l'; mret (if (b : bool) then x :: ys else ys)
  end.

Module Store.

(** [object.__new__(cls)]: a new object with an empty [__dict__]. *)
Definition alloc (c : pyclass) : M nat := fun h =>
  (Ok (length h), (h ++ [{| ob_type := c; ob_dict := ∅ |}])%list).

(** Reading an object.  Python has no dangling reference; the model answers
    one with a [TypeError]. *)
Definition load (r : nat) : M object := fun h =>
  match h !! r with
  | Some o => (Ok o, h)
  | None => (Raise (TypeError "no such object"), h)
  end.

(** [o.__dict__[name] = v] *)
Definition dict_setitem (r : nat) (name : string) (v : value) : M unit := fun h =>
  match h !! r with
  | Some o =>
      (Ok (), <[r := {| ob_type := ob_type o;
                        ob_dict := <[name := v]> (ob_dict o) |}]> h)
  | None => (Raise (TypeError "no such object"), h)
  end.

(** [object.__setattr__(self, name, value)] for an instance of a class made
    by the decorator.  A data descriptor of the class comes first: every
    such class has [__class__], [__dict__] and [__weakref__]; the first
    takes a class and the second a dict, which no [value] is, and the third
    cannot be written.  Under any other name the value is stored in
    [__dict__]: the decorated classes of the model declare their names,
    aliases and versions and nothing else, so no property or slot. *)
Definition object__setattr__ (self : nat) (name : string) (v : value) : M unit :=
  if String.eqb name "__class__" then
    raise (TypeError "__class__ must be set to a class")
  else if String.eqb name "__dict__" then
    raise (TypeError "__dict__ must be set to a dictionary")
  else if String.eqb name "__weakref__" then
    raise (AttributeError "attribute '__weakref__' is not writable")
  else dict_setitem self name v.

(** [aspectbase.__setattr__(self, name, value)] *)
Definition aspectbase__setattr__ (self : nat) (name : string) (v : value) : M unit :=
  raise (AttributeError "can't set attributes of aspectclass instances").

(** [self.name = value], [setattr(self, name, value)]: the [__setattr__] that
    the class of [self] finds first.  [Language] and the classes made from it
    define none and do not derive from [aspectbase]: they find the one of
    [object]. *)
Definition setattr (self : nat) (name : string) (v : value) : M unit :=
  o ← load self;
  match ob_type o with
  | aspectclass _ _ => aspectbase__setattr__ self name v
  | LanguageSub _ => object__setattr__ self name v
  end.

(** [type(self)] for an instance of a language class. *)
Definition type_of (self : nat) : M LanguageType :=
  o ← load self;
  match ob_type o with
  | LanguageSub cls => mret cls
  | aspectclass _ _ => raise (TypeError "not a Language")
  end.

(** [self.versions]: the entry of [__dict__], else the attribute of the
    class.  The program iterates over it as over numbers. *)
Definition get_versions (self : nat) : M (list number) :=
  o ← load self;
  match ob_dict o !! "versions" with
  | Some (VSeq l) => mret l
  | Some _ => raise (TypeError "versions is not a sequence of numbers")
  | None =>
      match ob_type o with
      | LanguageSub cls => mret (cls_versions cls)
      | aspectclass _ _ => raise (AttributeError "versions")
      end
  end.

(** [Language.__init__(self, *versions)] *)
Definition Language__init__ (self : nat) (versions : list number) : M unit :=
  cls ← type_of self;
  if forallb (fun version => py_in version (cls_versions cls)) versions then
    if is_nil versions then setattr self "versions" (VSeq (cls_versions cls))
    else setattr self "versions" (VSeq (sorted versions))
  else raise AssertionError.

(** [LanguageMeta.__call__(cls, *args)] for a class made by the decorator:
    [type.__call__], that is [__new__] and then [__init__]. *)
Definition LanguageMeta__call__ (cls : LanguageType) (args : list number) : M nat :=
  self ← alloc (LanguageSub cls);
  _ ← Language__init__ self args;
  mret self.

(** The body of [limit_versions], as in [limit_versions_with]. *)
Definition limit_versions_with {L : Type}
    (isinstance_int : L -> bool)
    (apply : relop -> number -> L -> M bool)
    (language : nat) (limit : L) (op : relop) : M nat :=
  all ← get_versions language;
  versions ←
    (if isinstance_int limit then
       filter_m (fun version => i ← lift (py_int version); apply op (PyInt i) limit) all
     else
       filter_m (fun version => apply op version limit) all);
  if is_nil versions then raise ValueError_no_versions_left
  else cls ← type_of language; LanguageMeta__call__ cls versions.

Definition limit_versions_number : nat -> number -> relop -> M nat :=
  limit_versions_with is_int (fun op a b => mret (operator op a b)).

(** A limit: a number or a reference to an instance. *)
Inductive limit : Type :=
| LNum (n : number)
| LRef (other : nat).

Definition apply_operator (op : relop) (version : number) (limit : limit) : M bool :=
  match limit with
  | LNum n => mret (operator op version n)
  | LRef other =>
      _ ← limit_versions_number other version (reflected op); mret true
  end.

Definition limit_is_int (limit : limit) : bool :=
  match limit with
  | LNum n => is_int n
  | LRef _ => false
  end.

(** [limit_versions(language, limit, operator)] *)
Definition limit_versions : nat -> limit -> relop -> M nat :=
  limit_versions_with limit_is_int apply_operator.

(** [Language.__gt__] and the five others. *)
Definition Language_op (op : relop) (self : nat) (other : limit) : M nat :=
  limit_versions self other op.

(** [LanguageMeta.__gt__] and the five others: [cls() <op> other]. *)
Definition LanguageMeta_op (op : relop) (cls : LanguageType) (other : limit) : M nat :=
  self ← LanguageMeta__call__ cls []; Language_op op self other.

(** [aspectbase.__init__(self, **taste_values)]; [self] has just been
    allocated.  The values are stored in [__dict__] directly. *)
Fixpoint aspectbase_store_tastes (self : nat) (tastes : list (string * taste))
    (taste_values : gmap string value) : M unit :=
  match tastes with
  | [] => mret ()
  | (name, t) :: rest =>
      v ← lift (cast_type t (default (taste_default t) (taste_values !! name)));
      _ ← dict_setitem self name v;
      aspectbase_store_tastes self rest (delete name taste_values)
  end.

Definition aspectbase__init__ (self : nat) (taste_values : gmap string value)
  : M unit :=
  o ← load self;
  match ob_type o with
  | aspectclass _ tastes => aspectbase_store_tastes self tastes taste_values
  | LanguageSub _ => raise (TypeError "not an aspect")
  end.

(** An aspect class called with taste values: [__new__], then [__init__]. *)
Definition aspectclass__call__ (id : nat) (tastes : list (string * taste))
    (taste_values : gmap string value) : M nat :=
  self ← alloc (aspectclass id tastes);
  _ ← aspectbase__init__ self taste_values;
  mret self.

(** The property [aspectbase.tastes]: [{name: self.__dict__[name] for name in
    type(self).tastes}], in the order of the names. *)
Definition aspectbase_tastes (self : nat) : M (list (string * value)) :=
  o ← load self;
  match ob_type o with
  | aspectclass _ tastes =>
      lift (map_r (fun nt : string * taste =>
                     match ob_dict o !! nt.1 with
                     | Some v => Ok (nt.1, v)
                     | None => Raise (KeyError nt.1)
                     end) tastes)
  | LanguageSub _ => raise (TypeError "not an aspect")
  end.

End Store.

(** The object that an instance, seen as a value, stands for. *)
Definition object_of (l : Language) : object :=
  {| ob_type := LanguageSub (lang_type l);
     ob_dict := {[ "versions" := VSeq (versions l) ]} |}.

(** ** The classes of the docstrings *)

Definition Python_decl : declaration :=
  {| decl_name := "Python"; decl_qualname := "Python";
     decl_aliases := ["py"];
     decl_versions := Some [2.7; 3.3; 3.4; 3.5; 3.6]%py |}.

Definition CPP_decl : declaration :=
  {| decl_name := "CPP"; decl_qualname := "C++";
     decl_aliases := ["CXX"];
     decl_versions := Some [11; 14; 17]%py |}.

(** A language declared without versions. *)
Definition Plain_decl : declaration :=
  {| decl_name := "Plain"; decl_qualname := "Plain";
     decl_aliases := [];
     decl_versions := None |}.

Definition Python : LanguageType :=
  {| cls_id := 0; cls_name := "Python"; cls_qualname := "Python";
     cls_aliases := ["py"];
     cls_versions := [2.7; 3.3; 3.4; 3.5; 3.6]%py |}.

Definition CPP : LanguageType :=
  {| cls_id := 1; cls_name := "CPP"; cls_qualname := "C++";
     cls_aliases := ["CXX"];
     cls_versions := [11; 14; 17]%py |}.

Definition Plain : LanguageType :=
  {| cls_id := 2; cls_name := "Plain"; cls_qualname := "Plain";
     cls_aliases := [];
     cls_versions := [] |}.

(** [Python()], [Python(3.3)] and [Python(3.3, 3.4)] *)
Definition Python_all : Language :=
  {| lang_type := Python; versions := [2.7; 3.3; 3.4; 3.5; 3.6]%py |}.

Definition Python_33 : Language :=
  {| lang_type := Python; versions := [3.3]%py |}.

Definition Python_33_34 : Language :=
  {| lang_type := Python; versions := [3.3; 3.4]%py |}.

(** An aspect class with one taste, [style], whose values are texts. *)
Definition style_taste : taste :=
  {| cast_type := fun v => match v with
                           | VText s => Ok (VText s)
                           | _ => Raise (TypeError "style is a text")
                           end;
     taste_default := VText "plain" |}.

(** A second class registered under the name [Python]. *)
Definition Python_again : LanguageType :=
  {| cls_id := 1; cls_name := "Python"; cls_qualname := "Python";
     cls_aliases := [];
     cls_versions := [3.7]%py |}.

(** A class whose qualified name has two words, and a class whose only
    version is the [int] [2**53 + 1], which no binary64 number equals. *)
Definition ObjectiveC : LanguageType :=
  {| cls_id := 0; cls_name := "ObjectiveC"; cls_qualname := "Objective C";
     cls_aliases := [];
     cls_versions := [PyFloat (Finite false 2 0)] |}.

Definition Big : LanguageType :=
  {| cls_id := 0; cls_name := "Big"; cls_qualname := "Big";
     cls_aliases := [];
     cls_versions := [PyInt 9007199254740993] |}.

(** ** Predicates used in the statements *)

(** A number that is neither an infinity nor a NaN. *)
Definition is_finite (n : number) : bool :=
  match n with
  | PyInt _ => true
  | PyFloat (Finite _ _ _) => true
  | PyFloat _ => false
  end.

(** [int(v)] for a finite number. *)
Definition truncate (v : number) : Z :=
  match v with
  | PyInt z => z
  | PyFloat (Finite neg m k) => Z.quot (signed neg m) (10 ^ Z.of_nat k)
  | PyFloat _ => 0
  end.

(** The comparison that [limit_versions] makes between a version and a
    number [limit]. *)
Definition holds (op : relop) (limit : number) (version : number) : bool :=
  if is_int limit then operator op (PyInt (truncate version)) limit
  else operator op version limit.

(** A class as the decorator leaves it when the declared versions are
    finite numbers: [versions] is sorted. *)
Definition class_ok (cls : LanguageType) : Prop :=
  forallb is_finite (cls_versions cls) = true
  /\ sorted (cls_versions cls) = cls_versions cls.

(** [a <= b] on finite numbers. *)
Definition num_le (a b : number) : Prop :=
  match value_of a, value_of b with
  | XFin x j, XFin y k => x * 10 ^ Z.of_nat k <= y * 10 ^ Z.of_nat j
  | _, _ => False
  end.

(** A list in ascending order: every element is below all that follow. *)
Inductive ascending : list number -> Prop :=
| ascending_nil : ascending []
| ascending_cons x l :
    Forall (num_le x) l -> ascending l -> ascending (x :: l).

(** What holds of every instance of a class that is [class_ok]: its versions
    are finite, in ascending order, and versions of the class. *)
Definition instance_ok (l : Language) : Prop :=
  forallb is_finite (versions l) = true
  /\ ascending (versions l)
  /\ forallb (fun v => py_in v (cls_versions (lang_type l))) (versions l) = true.

(** A text without white space and without comma (it may be empty). *)
Definition single_word (s : string) : bool :=
  forallb (fun c => negb (is_space c) && negb (is_comma c))
          (list_ascii_of_string s).

(** Characters without white space, and a text without comma. *)
Definition no_space (l : chars) : bool :=
  forallb (fun c => negb (is_space c)) l.

Definition no_comma (s : string) : bool :=
  forallb (fun c => negb (is_comma c)) (list_ascii_of_string s).

(** [cls] answers to the name [ident]: one of its aliases, its qualified
    name or its declared name equals [ident] when case is ignored. *)
Definition answers_to (ident : string) (cls : LanguageType) : bool :=
  existsb (String.eqb (lower ident)) (names_of cls).

(** All versions of the list are versions of the class. *)
Definition all_in (cls : LanguageType) (versions : list number) : bool :=
  forallb (fun version => py_in version (cls_versions cls)) versions.

(** The text of [v] is one word that [float()] reads back as a number
    equal to [v]. *)
Definition reads_back (v : number) : bool :=
  single_word (str_number v)
  && match py_float (str_number v) with
     | Ok f => operator op_eq (PyFloat f) v
     | Raise _ => false
     end.

(** Two sequences of numbers are equal as Python lists are: they have the
    same length and [==] holds element by element. *)
Definition seq_eq (a b : list number) : Prop :=
  Forall2 (fun x y => operator op_eq x y = true) a b.

(** What [aspectbase.__init__] stores for one taste: the given value, or
    the default of the taste when none is given, cast to the type of the
    taste. *)
Definition taste_value (taste_values : gmap string value)
    (nt : string * taste) : result (string * value) :=
  v ← cast_type nt.2 (default (taste_default nt.2) (taste_values !! nt.1));
  Ok (nt.1, v).

(** A [__dict__] after the assignments [d[name] = v], in their order. *)
Definition dict_update (d : gmap string value) (vals : list (string * value))
  : gmap string value :=
  foldl (fun d nv => <[nv.1 := nv.2]> d) d vals.

(** A computation that leaves every object of the heap as it was and at
    most appends new ones, whether it returns or raises. *)
Definition grows {A} (m : M A) : Prop :=
  forall (h : heap) res h', m h = (res, h') -> exists new, h' = (h ++ new)%list.

(** ** Lemmas on numbers and sorting *)

Lemma value_of_finite a :
  is_finite a = true -> exists x k, value_of a = XFin x k.
Proof.
  destruct a as [z|[neg m k| |]]; simpl; intros H; try discriminate; eauto.
Qed.

Lemma pow10_pos (k : nat) : 0 < 10 ^ Z.of_nat k.
Proof. apply Z.pow_pos_nonneg; lia. Qed.

Lemma operator_eq_refl a : is_finite a = true -> operator op_eq a a = true.
Proof.
  intros [x [k E]]%value_of_finite.
  unfold operator, num_compare. rewrite E. by rewrite Z.compare_refl.
Qed.

Lemma operator_eq_finite a b :
  is_finite b = true -> operator op_eq a b = true -> is_finite a = true.
Proof.
  intros [y [k E]]%value_of_finite. unfold operator, num_compare. rewrite E.
  destruct a as [z|[neg m j|[]|]]; simpl; try done.
Qed.

Lemma num_le_lt a b :
  is_finite a = true -> is_finite b = true ->
  (num_le a b <-> operator op_lt b a = false).
Proof.
  intros [x [j Ea]]%value_of_finite [y [k Eb]]%value_of_finite.
  unfold num_le, operator, num_compare. rewrite Ea, Eb.
  destruct (Z.compare_spec (y * 10 ^ Z.of_nat j) (x * 10 ^ Z.of_nat k));
    split; intros; try done; lia.
Qed.

Lemma num_le_total a b :
  is_finite a = true -> is_finite b = true -> num_le a b \/ num_le b a.
Proof.
  intros [x [j Ea]]%value_of_finite [y [k Eb]]%value_of_finite.
  unfold num_le. rewrite Ea, Eb. lia.
Qed.

Lemma num_le_trans a b c :
  is_finite b = true -> num_le a b -> num_le b c -> num_le a c.
Proof.
  intros [y [k Eb]]%value_of_finite. unfold num_le. rewrite Eb.
  destruct (value_of a) as [| |x j|]; try done.
  destruct (value_of c) as [| |z l|]; try done.
  intros H1 H2.
  pose proof (pow10_pos j). pose proof (pow10_pos k). pose proof (pow10_pos l).
  apply (Z.mul_le_mono_pos_r _ _ (10 ^ Z.of_nat k)); [done|].
  transitivity (y * 10 ^ Z.of_nat j * 10 ^ Z.of_nat l).
  - replace (x * 10 ^ Z.of_nat l * 10 ^ Z.of_nat k)
      with (x * 10 ^ Z.of_nat k * 10 ^ Z.of_nat l) by ring.
    by apply Z.mul_le_mono_pos_r.
  - replace (y * 10 ^ Z.of_nat j * 10 ^ Z.of_nat l)
      with (y * 10 ^ Z.of_nat l * 10 ^ Z.of_nat j) by ring.
    replace (z * 10 ^ Z.of_nat j * 10 ^ Z.of_nat k)
      with (z * 10 ^ Z.of_nat k * 10 ^ Z.of_nat j) by ring.
    by apply Z.mul_le_mono_pos_r.
Qed.

Lemma py_int_finite v : is_finite v = true -> py_int v = Ok (truncate v).
Proof. destruct v as [z|[neg m k| |]]; simpl; intros; done. Qed.

Lemma insort_head x l :
  is_finite x = true -> forallb is_finite l = true ->
  Forall (num_le x) l -> insort x l = x :: l.
Proof.
  intros Hx Hl Hle. destruct l as [|y l']; [done|]. cbn [insort].
  apply andb_prop in Hl as [Hy _]. inversion_clear Hle as [|? ? Hxy _].
  apply num_le_lt in Hxy; [|done..]. by rewrite Hxy.
Qed.

Lemma sorted_ascending l :
  forallb is_finite l = true -> ascending l -> sorted l = l.
Proof.
  induction 2 as [|x l Hx Hl IH]; [done|].
  simpl in H. apply andb_prop in H as [Hfx Hfl].
  unfold sorted in *. simpl. rewrite IH by done. by apply insort_head.
Qed.

Lemma insort_perm x l : Permutation (insort x l) (x :: l).
Proof.
  induction l as [|y l IH]; [done|]. cbn [insort].
  destruct (operator op_lt y x); [|done].
  rewrite IH. apply perm_swap.
Qed.

Lemma sorted_perm l : Permutation (sorted l) l.
Proof.
  induction l as [|x l IH]; [done|]. unfold sorted in *. simpl.
  rewrite insort_perm. by constructor.
Qed.

Lemma forallb_perm {A} (p : A -> bool) l l' :
  Permutation l l' -> forallb p l = forallb p l'.
Proof.
  induction 1; simpl; try congruence.
  destruct (p x), (p y); done.
Qed.

Lemma insort_ascending x l :
  is_finite x = true -> forallb is_finite l = true ->
  ascending l -> ascending (insort x l).
Proof.
  intros Hx Hl Hasc. induction Hasc as [|y l Hy Hasc IH]; cbn [insort].
  - repeat constructor.
  - simpl in Hl. apply andb_prop in Hl as [Hfy Hfl].
    destruct (operator op_lt y x) eqn:E.
    + constructor; [|by apply IH].
      rewrite insort_perm. constructor; [|done].
      destruct (num_le_total y x) as [?|Hxy]; [done..| |]; [done|].
      apply num_le_lt in Hxy; [congruence|done..].
    + assert (num_le x y) as Hxy by (by apply num_le_lt).
      constructor; [|by constructor].
      constructor; [done|].
      eapply Forall_impl; [exact Hy|]. intros z Hz.
      by apply (num_le_trans x y z).
Qed.

Lemma sorted_is_ascending l :
  forallb is_finite l = true -> ascending (sorted l).
Proof.
  induction l as [|x l IH]; simpl; intros H; [constructor|].
  apply andb_prop in H as [Hx Hl]. unfold sorted in *. simpl.
  apply insort_ascending; [done| |by apply IH].
  by rewrite (forallb_perm _ _ _ (sorted_perm l)).
Qed.

Lemma ascending_filter p l : ascending l -> ascending (List.filter p l).
Proof.
  induction 1 as [|x l Hx Hl IH]; simpl; [constructor|].
  destruct (p x); [|done]. constructor; [|done].
  apply List.Forall_forall. intros y [Hy _]%filter_In.
  rewrite List.Forall_forall in Hx. by apply Hx.
Qed.

Lemma forallb_filter {A} (p q : A -> bool) l :
  forallb p l = true -> forallb p (List.filter q l) = true.
Proof.
  induction l as [|x l IH]; simpl; [done|].
  intros [Hx Hl]%andb_prop. destruct (q x); simpl; [|by apply IH].
  by rewrite Hx, IH.
Qed.

Lemma class_ok_ascending cls : class_ok cls -> ascending (cls_versions cls).
Proof. intros [Hf Hs]. rewrite <- Hs. by apply sorted_is_ascending. Qed.

(** ** Lemmas on construction and limiting *)

Lemma py_in_finite v vs :
  forallb is_finite vs = true -> py_in v vs = true -> is_finite v = true.
Proof.
  intros Hvs [w [Hw E]]%existsb_exists.
  rewrite forallb_forall in Hvs. eapply operator_eq_finite; eauto.
Qed.

Lemma py_in_self vs :
  forallb is_finite vs = true ->
  forallb (fun v => py_in v vs) vs = true.
Proof.
  intros Hvs. apply forallb_forall. intros v Hv.
  apply existsb_exists. exists v. split; [done|].
  rewrite forallb_forall in Hvs. by apply operator_eq_refl, Hvs.
Qed.

Lemma forallb_py_in_finite vs args :
  forallb is_finite vs = true ->
  forallb (fun v => py_in v vs) args = true ->
  forallb is_finite args = true.
Proof.
  intros Hvs Hargs. apply forallb_forall. intros v Hv.
  rewrite forallb_forall in Hargs. eapply py_in_finite; eauto.
Qed.

Lemma sorted_nil_inv l : sorted l = [] -> l = [].
Proof.
  intros H. pose proof (sorted_perm l) as P. rewrite H in P.
  by apply Permutation_nil.
Qed.

(** Construction succeeds exactly when the assertion holds, and then gives
    an instance of the class that satisfies the invariant. *)
Lemma construct_ok cls args l :
  class_ok cls -> LanguageMeta__call__ cls args = Ok l ->
  lang_type l = cls /\ instance_ok l.
Proof.
  intros Hcls. pose proof Hcls as [Hfin Hsort].
  unfold LanguageMeta__call__, Language__init__.
  destruct (forallb _ args) eqn:Hin; [|done].
  destruct args as [|a args]; intros [= <-]; (split; [done|]);
    unfold instance_ok; cbn [versions lang_type].
  - split_and!; [done|by apply class_ok_ascending|by apply py_in_self].
  - pose proof (forallb_py_in_finite _ _ Hfin Hin) as Hf.
    split_and!.
    + by rewrite (forallb_perm _ _ _ (sorted_perm _)).
    + by apply sorted_is_ascending.
    + by rewrite (forallb_perm _ _ _ (sorted_perm _)).
Qed.

(** Constructing from versions that an instance already has gives the
    instance with exactly these versions. *)
Lemma construct_again cls kept :
  forallb is_finite kept = true -> ascending kept ->
  forallb (fun v => py_in v (cls_versions cls)) kept = true ->
  kept <> [] ->
  LanguageMeta__call__ cls kept = Ok {| lang_type := cls; versions := kept |}.
Proof.
  intros Hf Ha Hin Hne. unfold LanguageMeta__call__, Language__init__.
  rewrite Hin. destruct kept as [|a kept]; [done|].
  by rewrite sorted_ascending.
Qed.

Lemma filter_r_total {A} (f : A -> result bool) (g : A -> bool) l :
  (forall x, In x l -> f x = Ok (g x)) ->
  filter_r f l = Ok (List.filter g l).
Proof.
  induction l as [|x l IH]; intros H; [done|].
  cbn [filter_r List.filter]. rewrite (H x) by (by left).
  cbn. rewrite IH by (intros; apply H; by right). cbn.
  by destruct (g x).
Qed.

Lemma is_nil_false {A} (l : list A) : is_nil l = false <-> l <> [].
Proof. by destruct l. Qed.

(** [limit_versions] with a number as limit, on an instance that satisfies
    the invariant. *)
Lemma limit_versions_number_spec self limit op :
  instance_ok self ->
  limit_versions_number self limit op =
    let kept := List.filter (holds op limit) (versions self) in
    if is_nil kept then Raise ValueError_no_versions_left
    else Ok {| lang_type := lang_type self; versions := kept |}.
Proof.
  intros (Hf & Ha & Hin).
  unfold limit_versions_number, limit_versions_with.
  assert (filter_r (if is_int limit
            then fun version => i ← py_int version; Ok (operator op (PyInt i) limit)
            else fun version => Ok (operator op version limit))
            (versions self)
          = Ok (List.filter (holds op limit) (versions self))) as E.
  { apply filter_r_total. intros v Hv. unfold holds.
    destruct (is_int limit); [|done].
    rewrite forallb_forall in Hf. by rewrite py_int_finite by auto. }
  destruct (is_int limit); rewrite E; cbn;
    (destruct (is_nil _) eqn:Hnil; [done|]);
    apply construct_again;
    auto using forallb_filter, ascending_filter; by apply is_nil_false.
Qed.

Lemma limit_versions_number_eq self (limit : number) op :
  limit_versions self limit op = limit_versions_number self limit op.
Proof. done. Qed.

Lemma Language_op_eq op self other :
  Language_op op self other = limit_versions self other op.
Proof. by destruct op. Qed.

Lemma LanguageMeta_op_eq op cls other :
  LanguageMeta_op op cls other =
    (self ← LanguageMeta__call__ cls []; Language_op op self other).
Proof. by destruct op. Qed.

(** ** The docstring examples *)

Lemma decorator_examples :
  LanguageMeta__call__Language [] [Python_decl] = Ok (Python, [Python])
  /\ LanguageMeta__call__Language [Python] [CPP_decl] = Ok (CPP, [Python; CPP])
  /\ LanguageMeta__call__Language [Python; CPP] [Plain_decl]
     = Ok (Plain, [Python; CPP; Plain]).
Proof. by vm_compute. Qed.

Lemma Python_class_ok : class_ok Python.
Proof. by vm_compute. Defined.

Lemma CPP_class_ok : class_ok CPP.
Proof. by vm_compute. Defined.

(** The decorator leaves a class that is [class_ok] when the declared
    versions are finite. *)
Lemma decorator_class_ok all arg cls all' :
  forallb is_finite (default [] (decl_versions arg)) = true ->
  LanguageMeta__call__Language all [arg] = Ok (cls, all') ->
  class_ok cls /\ all' = (all ++ [cls])%list.
Proof.
  intros Hf [= <- <-]. split; [|done]. split; cbn [cls_versions].
  - by rewrite (forallb_perm _ _ _ (sorted_perm _)).
  - apply sorted_ascending.
    + by rewrite (forallb_perm _ _ _ (sorted_perm _)).
    + by apply sorted_is_ascending.
Qed.

(** The examples of the docstring of [Language]. *)
Lemma Language_docstring_examples :
  LanguageMeta__getattr__ [Python; CPP] "Python" = Ok Python
  /\ (self ← LanguageMeta__call__ Python [3.6]%py; Ok (Language__str__ self))
     = Ok "Python 3.6"
  /\ (self ← LanguageMeta__getitem__ [Python; CPP] "PY 3.4, 3.6";
      Ok (Language__str__ self)) = Ok "Python 3.4, 3.6"
  /\ (self ← LanguageMeta__call__ CPP [11]%py; Ok (Language__str__ self))
     = Ok "C++ 11"
  /\ (a ← LanguageMeta__gt__ Python 3.3%py; b ← Language__le__ a 3.5%py;
      Ok (Language__str__ b)) = Ok "Python 3.4, 3.5"
  /\ (a ← LanguageMeta__eq__ Python 3%py; Ok (Language__str__ a))
     = Ok "Python 3.3, 3.4, 3.5, 3.6"
  /\ (self ← LanguageMeta__call__ Python [3.6]%py;
      LanguageMeta__contains__ Python (Instance self)) = Ok true
  /\ LanguageMeta__contains__ Python "pY 3.6, 3.5" = Ok true
  /\ LanguageMeta__contains__ Python "Python 2.6" = Ok false
  /\ LanguageMeta__contains__ Python "Python" = Ok true
  /\ LanguageMeta__getattr__ [Python; CPP] "Cobol"
     = Raise (AttributeError EmptyString).
Proof. split_and!; by vm_compute. Qed.

(** ** The claims *)

(** The relational operators of an instance with a number as limit. *)
Lemma Language_op_number_spec cls args self op (limit : number) :
  class_ok cls ->
  LanguageMeta__call__ cls args = Ok self ->
  Language_op op self limit =
    let kept := List.filter (holds op limit) (versions self) in
    if is_nil kept then Raise ValueError_no_versions_left
    else Ok {| lang_type := cls; versions := kept |}.
Proof.
  intros Hcls Hself.
  destruct (construct_ok _ _ _ Hcls Hself) as [<- Hok].
  rewrite Language_op_eq, limit_versions_number_eq.
  by apply limit_versions_number_spec.
Qed.

(** C3.  For every instance, every relational operator [op] and every
    number [limit], restricting keeps exactly the versions [v] of the
    instance for which the comparison holds, in their order, the comparison
    being [op(int(v), limit)] when [limit] is an [int] and [op(v, limit)]
    otherwise ([holds]); when no version is kept the operation raises
    [ValueError('No versions left')].  The classes are those that the
    decorator makes from finite version numbers. *)
Theorem C3_limit_keeps_matching_versions
    cls args self op (limit : number) :
  class_ok cls ->
  LanguageMeta__call__ cls args = Ok self ->
  Language_op op self limit =
    let kept := List.filter (holds op limit) (versions self) in
    if is_nil kept then Raise ValueError_no_versions_left
    else Ok {| lang_type := cls; versions := kept |}.
Proof.
  intros Hcls Hself.
  destruct (construct_ok _ _ _ Hcls Hself) as [<- (Hfin & Hasc & Hin)].
  rewrite Language_op_eq, limit_versions_number_eq.
  rewrite limit_versions_number_spec by done. cbn zeta.
  destruct (List.filter (holds op limit) (versions self)) eqn:E; done.
Qed.

(** [Python == 3] is [Python 3.3, 3.4, 3.5, 3.6]. *)
Lemma C3_witness :
  class_ok Python
  /\ LanguageMeta__call__ Python [] = Ok Python_all
  /\ Language_op op_eq Python_all 3%py
     = Ok {| lang_type := Python; versions := [3.3; 3.4; 3.5; 3.6]%py |}.
Proof.
  split; [exact Python_class_ok|]. split; [reflexivity|].
  exact (C3_limit_keeps_matching_versions Python [] Python_all op_eq 3%py
           Python_class_ok eq_refl).
Defined.

(** C10.  Truncation depends on the type of the limit, not on its value:
    with a [float] limit, whole or not, every instance keeps the versions
    [v] for which [op(v, limit)] holds on the versions as they are; and on
    the same versions [== 3] keeps every [3.x] while [== 3.0] keeps none. *)
Theorem C10_float_limit_compares_untruncated :
  (forall cls args self op (f : pyfloat),
     class_ok cls ->
     LanguageMeta__call__ cls args = Ok self ->
     Language_op op self (PyFloat f) =
       let kept :=
         List.filter (fun v => operator op v (PyFloat f)) (versions self) in
       if is_nil kept then Raise ValueError_no_versions_left
       else Ok {| lang_type := cls; versions := kept |})
  /\ Language_op op_eq Python_all (PyInt 3)
     = Ok {| lang_type := Python; versions := [3.3; 3.4; 3.5; 3.6]%py |}
  /\ Language_op op_eq Python_all (PyFloat (Finite false 30 1))
     = Raise ValueError_no_versions_left.
Proof.
  split; [|split; by vm_compute].
  intros cls args self op f Hcls Hself.
  destruct (construct_ok _ _ _ Hcls Hself) as [<- Hok].
  rewrite Language_op_eq, limit_versions_number_eq.
  by rewrite limit_versions_number_spec.
Qed.

(** [Python > 3.45] is [Python 3.5, 3.6]; the limit [3.0] is the float
    that equals the int [3]. *)
Lemma C10_witness :
  class_ok Python
  /\ LanguageMeta__call__ Python [] = Ok Python_all
  /\ operator op_eq 3.0%py 3%py = true
  /\ Language_op op_ge Python_all 3.0%py
     = Ok {| lang_type := Python; versions := [3.3; 3.4; 3.5; 3.6]%py |}
  /\ Language_op op_gt Python_all 3.45%py
     = Ok {| lang_type := Python; versions := [3.5; 3.6]%py |}.
Proof.
  split; [exact Python_class_ok|]. split; [reflexivity|].
  split; [reflexivity|]. split.
  - exact (proj1 C10_float_limit_compares_untruncated Python [] Python_all
             op_ge (Finite false 30 1) Python_class_ok eq_refl).
  - exact (proj1 C10_float_limit_compares_untruncated Python [] Python_all
             op_gt (Finite false 345 2) Python_class_ok eq_refl).
Defined.

(** C4, as stated, fails: the default instance of a class declared without
    versions has no version, and no error is raised. *)
Lemma C4_counterexample :
  LanguageMeta__call__Language [Python; CPP] [Plain_decl]
    = Ok (Plain, [Python; CPP; Plain])
  /\ LanguageMeta__call__ Plain [] = Ok {| lang_type := Plain; versions := [] |}.
Proof. by vm_compute. Qed.

Lemma limit_versions_with_nonempty {L} isint apply self (limit : L) op r :
  limit_versions_with isint apply self limit op = Ok r -> versions r <> [].
Proof.
  unfold limit_versions_with.
  destruct (if isint limit then _ else _) as [kept|e]; cbn; [|done].
  destruct (is_nil kept) eqn:Hnil; [done|].
  unfold LanguageMeta__call__, Language__init__.
  destruct (forallb _ kept); [|done].
  destruct kept as [|a kept]; [done|]. intros [= <-]. cbn [versions].
  by intros ?%sorted_nil_inv.
Qed.

(** C4, amended.  An instance returned by a relational operator has at
    least one version: a restriction that no version passes raises
    [ValueError('No versions left')], as [instance > 10] does.  Construction
    has no such check: with explicit versions it gives at least one
    version, and without it copies the versions of the class, of which there
    may be none. *)
Theorem C4_limit_never_returns_empty :
  (forall op self (limit : limit) r,
     Language_op op self limit = Ok r -> versions r <> [])
  /\ (forall cls args self op (limit : number),
        class_ok cls ->
        LanguageMeta__call__ cls args = Ok self ->
        List.filter (holds op limit) (versions self) = [] ->
        Language_op op self limit = Raise ValueError_no_versions_left)
  /\ (forall cls args r,
        args <> [] -> LanguageMeta__call__ cls args = Ok r -> versions r <> [])
  /\ (forall cls,
        LanguageMeta__call__ cls []
        = Ok {| lang_type := cls; versions := cls_versions cls |}).
Proof.
  split_and!.
  - intros op self limit r. rewrite Language_op_eq.
    apply limit_versions_with_nonempty.
  - intros cls args self op limit Hcls Hself Hnone.
    rewrite (Language_op_number_spec _ _ _ _ _ Hcls Hself).
    cbn zeta. by rewrite Hnone.
  - intros cls args r Hargs. unfold LanguageMeta__call__, Language__init__.
    destruct (forallb _ args); [|done].
    destruct args as [|a args]; [done|]. intros [= <-]. cbn [versions].
    by intros ?%sorted_nil_inv.
  - done.
Qed.

(** [Python > 10] raises, and [Python >= 3.5] has two versions. *)
Lemma C4_witness :
  class_ok Python
  /\ LanguageMeta__call__ Python [] = Ok Python_all
  /\ Language_op op_gt Python_all 10%py = Raise ValueError_no_versions_left
  /\ versions {| lang_type := Python; versions := [3.5; 3.6]%py |} <> [].
Proof.
  split; [exact Python_class_ok|]. split; [reflexivity|]. split.
  - exact (proj1 (proj2 C4_limit_never_returns_empty) Python [] Python_all
             op_gt 10%py Python_class_ok eq_refl eq_refl).
  - exact (proj1 C4_limit_never_returns_empty op_ge Python_all 3.5%py
             {| lang_type := Python; versions := [3.5; 3.6]%py |} eq_refl).
Defined.

(** C1, as stated, fails: [Python(3.3) == Python(3.3, 3.4)] returns an
    instance, which is true, although the version sequences differ; the
    other way round the comparison raises instead of being false. *)
Lemma C1_counterexample :
  LanguageMeta__call__ Python [3.3]%py = Ok Python_33
  /\ LanguageMeta__call__ Python [3.3; 3.4]%py = Ok Python_33_34
  /\ Language__eq__ Python_33 (LLang Python_33_34) = Ok Python_33
  /\ versions Python_33 <> versions Python_33_34
  /\ Language__eq__ Python_33_34 (LLang Python_33)
     = Raise ValueError_no_versions_left.
Proof. split_and!; by vm_compute. Qed.

Lemma filter_r_all {A} (f : A -> result bool) (c : A -> bool) e l :
  (forall x, In x l -> f x = if c x then Ok true else Raise e) ->
  filter_r f l = if forallb c l then Ok l else Raise e.
Proof.
  induction l as [|x l IH]; intros H; [done|].
  cbn [filter_r forallb]. rewrite (H x) by (by left).
  destruct (c x); [|done]. cbn.
  rewrite IH by (intros; apply H; by right).
  by destruct (forallb c l).
Qed.

Lemma is_nil_filter {A} (p : A -> bool) l :
  is_nil (List.filter p l) = negb (existsb p l).
Proof.
  induction l as [|x l IH]; [done|]. cbn. by destruct (p x).
Qed.

Lemma holds_eq_self v : is_finite v = true -> holds op_eq v v = true.
Proof.
  intros Hv. unfold holds. destruct v as [z|f]; cbn [is_int truncate].
  - by apply operator_eq_refl.
  - by apply operator_eq_refl.
Qed.

(** C1, amended.  [a == b] on two instances is no structural equality and
    no boolean: it is [limit_versions(a, b, operator.eq)].  It returns an
    instance with the class and the versions of [a] when [a] has a version
    and every version [v] of [a] selects a version [w] of [b] ([w == v], or
    [int(w) == v] when [v] is an [int]), whatever the class of [b]; it raises
    [ValueError('No versions left')] otherwise.  An instance that has a
    version, compared with itself, returns an instance equal to itself in
    class and versions. *)
Theorem C1_eq_on_instances_is_a_restriction :
  (forall cls_a args_a a cls_b args_b b,
     class_ok cls_a -> class_ok cls_b ->
     LanguageMeta__call__ cls_a args_a = Ok a ->
     LanguageMeta__call__ cls_b args_b = Ok b ->
     Language__eq__ a (LLang b) =
       if negb (is_nil (versions a))
          && forallb (fun v => existsb (holds op_eq v) (versions b)) (versions a)
       then Ok a
       else Raise ValueError_no_versions_left)
  /\ (forall cls args a,
        class_ok cls ->
        LanguageMeta__call__ cls args = Ok a ->
        versions a <> [] ->
        Language__eq__ a (LLang a) = Ok a).
Proof.
  assert (forall a b, instance_ok a -> instance_ok b ->
    Language__eq__ a (LLang b) =
      if negb (is_nil (versions a))
         && forallb (fun v => existsb (holds op_eq v) (versions b)) (versions a)
      then Ok a else Raise ValueError_no_versions_left) as Hgen.
  { intros a b (Hfa & Hasc & Hin) Hb.
    unfold Language__eq__, limit_versions, limit_versions_with.
    cbn [limit_is_int].
    rewrite (filter_r_all _ (fun v => existsb (holds op_eq v) (versions b))
               ValueError_no_versions_left).
    - destruct (forallb (fun v => existsb _ _) (versions a));
        [|by rewrite andb_false_r].
      rewrite andb_true_r. cbn.
      destruct (is_nil (versions a)) eqn:Hnil; [done|]. cbn [negb].
      rewrite construct_again; [by destruct a|done..|by apply is_nil_false].
    - intros v _. unfold apply_operator. cbn [reflected].
      rewrite limit_versions_number_spec by done. cbn zeta.
      rewrite is_nil_filter. destruct (existsb _ _); reflexivity. }
  split.
  - intros cls_a args_a a cls_b args_b b Ha Hb Hca Hcb.
    apply Hgen.
    + exact (proj2 (construct_ok _ _ _ Ha Hca)).
    + exact (proj2 (construct_ok _ _ _ Hb Hcb)).
  - intros cls args a Hcls Hca Hne.
    destruct (construct_ok _ _ _ Hcls Hca) as [_ Hok].
    rewrite Hgen by done.
    apply is_nil_false in Hne. rewrite Hne. cbn [negb andb].
    destruct Hok as (Hfa & _ & _).
    replace (forallb _ (versions a)) with true; [done|].
    symmetry. apply forallb_forall. intros v Hv.
    apply existsb_exists. exists v. split; [done|].
    rewrite forallb_forall in Hfa. by apply holds_eq_self, Hfa.
Qed.

(** [Python(3.3) == Python(3.3, 3.4)] returns [Python 3.3]; the two differ
    in their versions.  [CPP(11) == CPP(11)] returns [C++ 11]. *)
Lemma C1_witness :
  class_ok Python
  /\ LanguageMeta__call__ Python [3.3]%py = Ok Python_33
  /\ LanguageMeta__call__ Python [3.3; 3.4]%py = Ok Python_33_34
  /\ Language__eq__ Python_33 (LLang Python_33_34) = Ok Python_33
  /\ Language__eq__ Python_33 (LLang Python_33) = Ok Python_33.
Proof.
  split; [exact Python_class_ok|]. split; [reflexivity|].
  split; [reflexivity|]. split.
  - exact (proj1 C1_eq_on_instances_is_a_restriction
             Python [3.3]%py Python_33 Python [3.3; 3.4]%py Python_33_34
             Python_class_ok Python_class_ok eq_refl eq_refl).
  - refine (proj2 C1_eq_on_instances_is_a_restriction
              Python [3.3]%py Python_33 Python_class_ok eq_refl _).
    discriminate.
Defined.

(** ** Lemmas on texts *)

Lemma list_ascii_app a b :
  list_ascii_of_string (a ++ b)
  = (list_ascii_of_string a ++ list_ascii_of_string b)%list.
Proof.
  induction a as [|c a IH]; [done|].
  change (String c a ++ b) with (String c (a ++ b)).
  cbn [list_ascii_of_string app]. by rewrite IH.
Qed.

Lemma single_word_cons c s :
  single_word (String c s)
  = negb (is_space c) && negb (is_comma c) && single_word s.
Proof. done. Qed.

Lemma re_split_single_word s :
  single_word s = true -> re_split_from false s = (s, []).
Proof.
  induction s as [|c s IH]; [done|].
  rewrite single_word_cons. intros [[_ Hc]%andb_prop Hs]%andb_prop.
  cbn [re_split_from andb]. apply negb_true_iff in Hc. rewrite Hc.
  by rewrite IH.
Qed.

Lemma single_word_no_space s :
  single_word s = true -> no_space (list_ascii_of_string s) = true.
Proof.
  unfold single_word, no_space. rewrite !forallb_forall.
  intros H c Hc. by apply H, andb_prop in Hc as [? _].
Qed.

Lemma no_space_rev l : no_space (rev l) = no_space l.
Proof. apply forallb_perm. symmetry. apply Permutation_rev. Qed.

Lemma drop_space_no_space l : no_space l = true -> drop_space l = l.
Proof.
  destruct l as [|c l]; [done|]. cbn. intros [Hc _]%andb_prop.
  apply negb_true_iff in Hc. by rewrite Hc.
Qed.

Lemma span_word_app w r :
  no_space w = true ->
  match r with [] => True | c :: _ => is_space c = true end ->
  span_word (w ++ r)%list = (w, r).
Proof.
  intros Hw Hr. induction w as [|c w IH]; cbn.
  - destruct r as [|c r]; [done|]. cbn. by rewrite Hr.
  - cbn in Hw. apply andb_prop in Hw as [Hc Hw].
    apply negb_true_iff in Hc. by rewrite Hc, IH.
Qed.

(** A text without white space is not split. *)
Lemma rsplit1_single_word s :
  single_word s = true -> rsplit1 s = [] \/ rsplit1 s = [s].
Proof.
  intros Hs%single_word_no_space. unfold rsplit1.
  rewrite <- no_space_rev in Hs. rewrite drop_space_no_space by done.
  destruct (rev (list_ascii_of_string s)) as [|c l] eqn:E; [by left|right].
  rewrite <- (app_nil_r (c :: l)), span_word_app by done.
  cbn [drop_space dropwhile]. rewrite <- E, rev_involutive.
  by rewrite string_of_list_ascii_of_string.
Qed.

Lemma rev_chars_nonempty s : s <> EmptyString -> rev (list_ascii_of_string s) <> [].
Proof.
  intros Hs E. apply Hs. rewrite <- (string_of_list_ascii_of_string s).
  by rewrite <- (rev_involutive (list_ascii_of_string s)), E.
Qed.

(** Two words with one blank between them are split into the two. *)
Lemma rsplit1_two_words a b :
  single_word a = true -> a <> EmptyString -> single_word b = true -> b <> EmptyString ->
  rsplit1 (a ++ " " ++ b) = [a; b].
Proof.
  intros Ha%single_word_no_space Hane%rev_chars_nonempty
         Hb%single_word_no_space Hbne%rev_chars_nonempty.
  unfold rsplit1. rewrite !list_ascii_app, !rev_app_distr.
  cbn [list_ascii_of_string rev app].
  rewrite <- no_space_rev in Ha, Hb.
  rewrite <- (string_of_list_ascii_of_string a) at 2.
  rewrite <- (string_of_list_ascii_of_string b) at 2.
  rewrite <- (rev_involutive (list_ascii_of_string a)) at 2.
  rewrite <- (rev_involutive (list_ascii_of_string b)) at 2.
  generalize dependent (rev (list_ascii_of_string a)).
  generalize dependent (rev (list_ascii_of_string b)).
  intros lb Hb Hlb la Ha Hla.
  rewrite <- app_assoc. cbn [app].
  destruct lb as [|c lb]; [done|]. cbn [app].
  cbn in Hb. apply andb_prop in Hb as [Hc Hb].
  apply negb_true_iff in Hc.
  cbn [drop_space dropwhile]. unfold drop_space. cbn [dropwhile].
  rewrite Hc. cbn [span_word]. rewrite Hc.
  rewrite span_word_app by done. cbn [dropwhile].
  change (is_space " ") with true. cbn iota.
  change (dropwhile is_space la) with (drop_space la).
  rewrite drop_space_no_space by done.
  by destruct la.
Qed.

(** A single word is parsed as a name without versions. *)
Lemma parse_single_word s :
  single_word s = true -> parse_lang_str (Text s) = Ok (s, []).
Proof.
  intros Hs. unfold parse_lang_str, re_split. cbn [py_str].
  rewrite re_split_single_word by done. cbn.
  by destruct (rsplit1_single_word s Hs) as [-> | ->].
Qed.

(** ** The parser *)

Lemma map_r_raises {A B} (f : A -> result B) l :
  (exists e, map_r f l = Raise e) <-> exists x, In x l /\ exists e, f x = Raise e.
Proof.
  induction l as [|x l IH]; cbn [map_r].
  - split; [by intros [e ?]|by intros (x & [] & _)].
  - destruct (f x) as [y|e] eqn:E; cbn.
    + destruct (map_r f l) as [ys|e'] eqn:E'; cbn.
      * split; [by intros [e ?]|].
        intros (x' & [<-|Hx'] & e & He); [congruence|].
        destruct (proj2 IH) as [? ?]; [eauto|done].
      * split; [|eauto]. intros _.
        destruct (proj1 IH) as (x' & ? & ?); eauto.
    + split; eauto.
Qed.

(** The parser fails exactly when a piece after the first is no number. *)
Lemma parse_lang_str_fails_iff (text : item) :
  (exists e, parse_lang_str text = Raise e)
  <-> exists tok, In tok (re_split (py_str text)).2
                  /\ exists e, py_float tok = Raise e.
Proof.
  unfold parse_lang_str. destruct (re_split (py_str text)) as [name rest].
  cbn [snd]. rewrite <- (map_r_raises py_float).
  assert (map_r (fun s => f ← py_float s; Ok (PyFloat f)) rest
          = (fs ← map_r py_float rest; Ok (map PyFloat fs))) as ->.
  { induction rest as [|t rest IH]; [done|]. cbn [map_r].
    destruct (py_float t); cbn; [|done]. rewrite IH.
    by destruct (map_r py_float rest). }
  destruct (map_r py_float rest) as [fs|e]; cbn.
  - split; intros [e He]; [|done].
    destruct (rsplit1 name) as [|? [|? [|]]]; try done.
    by destruct (py_float _).
  - split; eauto.
Qed.

(** When the last word of the first piece is a number, it becomes the first
    version and the words before it are the name. *)
Lemma parse_lang_str_trailing_number (text : item) first rest versions name trailing f :
  re_split (py_str text) = (first, rest) ->
  map_r (fun s => f ← py_float s; Ok (PyFloat f)) rest = Ok versions ->
  rsplit1 first = [name; trailing] ->
  py_float trailing = Ok f ->
  parse_lang_str text = Ok (name, PyFloat f :: versions).
Proof.
  intros H1 H2 H3 H4. unfold parse_lang_str. rewrite H1, H2. cbn.
  by rewrite H3, H4.
Qed.

(** C5 (defect of the code).  The text [Objective C] is one piece whose last
    word, [C], is no number; the name that the parser returns is all the
    same the shortened one, [Objective], and not the first piece. *)
Theorem C5_name_shortened_without_number :
  re_split "Objective C" = ("Objective C", [])
  /\ rsplit1 "Objective C" = ["Objective"; "C"]
  /\ py_float "C" = Raise (ValueError_float "C")
  /\ parse_lang_str "Objective C" = Ok ("Objective", []).
Proof. split_and!; by vm_compute. Qed.

(** The examples of the docstring of [parse_lang_str]. *)
Lemma parse_lang_str_examples :
  parse_lang_str "Python" = Ok ("Python", [])
  /\ parse_lang_str "Python 3.3" = Ok ("Python", [3.3]%py)
  /\ parse_lang_str "Python 3.6, 3.3" = Ok ("Python", [3.6; 3.3]%py)
  /\ parse_lang_str "Objective C 3.6, 3.3" = Ok ("Objective C", [3.6; 3.3]%py)
  /\ parse_lang_str "Cobol, stupid!" = Raise (ValueError_float "stupid!").
Proof. split_and!; by vm_compute. Qed.

(** ** Membership and lookup *)

Lemma existsb_eqb_iff x (l : list string) :
  existsb (String.eqb x) l = true <-> In x l.
Proof.
  rewrite existsb_exists. split.
  - by intros (y & Hy & ->%String.eqb_eq).
  - intros Hx. exists x. by rewrite String.eqb_refl.
Qed.

(** C6, as stated, fails.  In the registry of [Python] and [C++], the
    identifier [Python 3.3] finds the class [Python], and [cpp] finds the
    class whose qualified name is [C++] and whose only alias is [CXX]: no
    qualified name and no alias equals either identifier, case ignored. *)
Lemma C6_counterexample :
  LanguageMeta__getattr__ [Python; CPP] "Python 3.3" = Ok Python
  /\ LanguageMeta__getattr__ [Python; CPP] "cpp" = Ok CPP
  /\ (forall cls ident,
        In cls [Python; CPP] -> In ident ["Python 3.3"; "cpp"] ->
        ~ In (lower ident) (map lower (cls_qualname cls :: cls_aliases cls))).
Proof.
  split; [by vm_compute|]. split; [by vm_compute|].
  intros cls ident [<-|[<-|[]]] [<-|[<-|[]]]; cbn; intros H;
    repeat (destruct H as [H|H]; [discriminate H|]); done.
Qed.

Lemma contains_single_word cls ident :
  single_word ident = true ->
  LanguageMeta__contains__ cls (Text ident) = Ok (answers_to ident cls).
Proof.
  intros Hw. unfold LanguageMeta__contains__.
  rewrite parse_single_word by done. cbn. unfold answers_to.
  by rewrite andb_true_r.
Qed.

Lemma lower_single_word a b :
  lower a = lower b -> single_word a = single_word b.
Proof.
  revert b. induction a as [|c a IH]; intros [|d b]; try done.
  cbn [lower]. intros [= Hc Hab]. rewrite !single_word_cons, (IH b Hab).
  f_equal. unfold lower_char in Hc.
  assert (forall x, ((65 <=? N_of_ascii x) && (N_of_ascii x <=? 90))%N = true ->
            is_space x = false /\ is_comma x = false
            /\ is_space (ascii_of_N (N_of_ascii x + 32)) = false
            /\ is_comma (ascii_of_N (N_of_ascii x + 32)) = false) as Hup.
  { intros x [H1%N.leb_le H2%N.leb_le]%andb_prop.
    unfold is_space, is_comma.
    rewrite N_ascii_embedding by lia.
    repeat split;
      repeat match goal with
             | |- context [(?p <=? ?q)%N] => destruct (N.leb_spec p q)
             | |- context [(?p =? ?q)%N] => destruct (N.eqb_spec p q)
             end; cbn; try done; lia. }
  destruct ((65 <=? N_of_ascii c) && (N_of_ascii c <=? 90))%N eqn:Ec,
           ((65 <=? N_of_ascii d) && (N_of_ascii d <=? 90))%N eqn:Ed.
  - destruct (Hup c Ec) as (-> & -> & _), (Hup d Ed) as (-> & -> & _). done.
  - destruct (Hup c Ec) as (-> & -> & Hs & Hk). by rewrite <- Hc, Hs, Hk.
  - destruct (Hup d Ed) as (-> & -> & Hs & Hk). by rewrite Hc, Hs, Hk.
  - by rewrite Hc.
Qed.

(** C6, amended.  For every registry and every identifier that is a single
    word (no white space, no comma), lookup returns the first registered
    class, in the order of registration, one of whose aliases, qualified
    name or declared name equals the identifier when case is ignored, and
    raises [AttributeError] when there is none; two such identifiers that
    differ in case only give the same result, as [PYTHON] and [python]. *)
Theorem C6_lookup_of_a_single_word :
  (forall (all : registry) ident,
     single_word ident = true ->
     LanguageMeta__getattr__ all ident =
       match List.find (answers_to ident) all with
       | Some cls => Ok cls
       | None => Raise (AttributeError EmptyString)
       end)
  /\ (forall (all : registry) ident ident',
        single_word ident = true ->
        lower ident = lower ident' ->
        LanguageMeta__getattr__ all ident = LanguageMeta__getattr__ all ident')
  /\ LanguageMeta__getattr__ [Python; CPP] "PYTHON" = Ok Python
  /\ LanguageMeta__getattr__ [Python; CPP] "python" = Ok Python.
Proof.
  assert (forall (all : registry) ident,
     single_word ident = true ->
     LanguageMeta__getattr__ all ident =
       match List.find (answers_to ident) all with
       | Some cls => Ok cls
       | None => Raise (AttributeError EmptyString)
       end) as Hfind.
  { intros all ident Hw. unfold LanguageMeta__getattr__.
    induction all as [|cls all IH]; [done|].
    cbn [first_containing List.find].
    rewrite contains_single_word by done. cbn.
    by destruct (answers_to ident cls). }
  split_and!; [done| |by vm_compute..].
  intros all ident ident' Hw Hlow.
  rewrite !Hfind by (by rewrite <- ?(lower_single_word _ _ Hlow)).
  unfold answers_to. by rewrite Hlow.
Qed.

(** [Language.CXX] is the class [C++], and [Language.Cobol] raises. *)
Lemma C6_witness :
  single_word "CXX" = true
  /\ LanguageMeta__getattr__ [Python; CPP] "CXX" = Ok CPP
  /\ LanguageMeta__getattr__ [Python; CPP] "Cobol" = Raise (AttributeError EmptyString)
  /\ LanguageMeta__getattr__ [Python; CPP] "cxx"
     = LanguageMeta__getattr__ [Python; CPP] "CxX".
Proof.
  split; [reflexivity|]. split; [|split].
  - exact (proj1 C6_lookup_of_a_single_word [Python; CPP] "CXX" eq_refl).
  - exact (proj1 C6_lookup_of_a_single_word [Python; CPP] "Cobol" eq_refl).
  - exact (proj1 (proj2 C6_lookup_of_a_single_word) [Python; CPP] "cxx" "CxX"
             eq_refl eq_refl).
Defined.

(** ** The object store *)

Lemma bind_ok {A B} (m : M A) (f : A -> M B) h a h' :
  m h = (Ok a, h') -> (m ≫= f) h = f a h'.
Proof. intros E. unfold mbind, M_bind. by rewrite E. Qed.

Lemma bind_raise {A B} (m : M A) (f : A -> M B) h e h' :
  m h = (Raise e, h') -> (m ≫= f) h = (Raise e, h').
Proof. intros E. unfold mbind, M_bind. by rewrite E. Qed.

Lemma lookup_new {A} (h : list A) o : (h ++ [o])%list !! length h = Some o.
Proof. by apply list_lookup_middle. Qed.

Lemma insert_new {A} (h : list A) o o' :
  <[length h := o']> (h ++ [o])%list = (h ++ [o'])%list.
Proof.
  rewrite insert_app_r_alt by done. by rewrite Nat.sub_diag.
Qed.

Lemma load_spec h r o : h !! r = Some o -> Store.load r h = (Ok o, h).
Proof. intros E. unfold Store.load. by rewrite E. Qed.

Lemma type_of_spec h r cls d :
  h !! r = Some {| ob_type := LanguageSub cls; ob_dict := d |} ->
  Store.type_of r h = (Ok cls, h).
Proof.
  intros E. unfold Store.type_of. by erewrite bind_ok by (by apply load_spec).
Qed.

Lemma dict_setitem_spec h r o name v :
  h !! r = Some o ->
  Store.dict_setitem r name v h
  = (Ok (), <[r := {| ob_type := ob_type o;
                      ob_dict := <[name := v]> (ob_dict o) |}]> h).
Proof. intros E. unfold Store.dict_setitem. by rewrite E. Qed.

(** Assignment to [versions] on an instance of a language class. *)
Lemma setattr_Language h r cls d v :
  h !! r = Some {| ob_type := LanguageSub cls; ob_dict := d |} ->
  Store.setattr r "versions" v h
  = (Ok (), <[r := {| ob_type := LanguageSub cls;
                      ob_dict := <["versions" := v]> d |}]> h).
Proof.
  intros E. unfold Store.setattr.
  erewrite bind_ok by (by apply load_spec). cbn [ob_type].
  unfold Store.object__setattr__. cbn [String.eqb Ascii.eqb Bool.eqb].
  by erewrite dict_setitem_spec by done.
Qed.

(** Assignment to an attribute of an instance of an aspect class. *)
Lemma setattr_aspect h r id tastes d name v :
  h !! r = Some {| ob_type := aspectclass id tastes; ob_dict := d |} ->
  Store.setattr r name v h
  = (Raise (AttributeError "can't set attributes of aspectclass instances"), h).
Proof.
  intros E. unfold Store.setattr.
  by erewrite bind_ok by (by apply load_spec).
Qed.

Lemma init_new_spec cls args h :
  Store.Language__init__ (length h) args
    (h ++ [{| ob_type := LanguageSub cls; ob_dict := ∅ |}])%list =
    match Language__init__ cls args with
    | Ok l => (Ok (), (h ++ [object_of l])%list)
    | Raise e =>
        (Raise e, (h ++ [{| ob_type := LanguageSub cls; ob_dict := ∅ |}])%list)
    end.
Proof.
  unfold Store.Language__init__, Language__init__.
  erewrite bind_ok by (eapply type_of_spec, lookup_new).
  destruct (forallb _ args); [|done].
  destruct args as [|a args]; cbn [is_nil];
    erewrite setattr_Language by apply lookup_new;
    by rewrite insert_new, insert_empty.
Qed.

(** Construction in the store: the new object is the last of the heap, and
    it is the instance that the construction on values gives. *)
Lemma Store_call_spec cls args h :
  Store.LanguageMeta__call__ cls args h =
    match LanguageMeta__call__ cls args with
    | Ok l => (Ok (length h), (h ++ [object_of l])%list)
    | Raise e =>
        (Raise e, (h ++ [{| ob_type := LanguageSub cls; ob_dict := ∅ |}])%list)
    end.
Proof.
  unfold Store.LanguageMeta__call__, LanguageMeta__call__.
  erewrite bind_ok by reflexivity.
  pose proof (init_new_spec cls args h) as E.
  destruct (Language__init__ cls args) as [l|e].
  - by erewrite bind_ok by exact E.
  - by erewrite bind_raise by exact E.
Qed.

Lemma get_versions_spec h r l :
  h !! r = Some (object_of l) -> Store.get_versions r h = (Ok (versions l), h).
Proof.
  intros E. unfold Store.get_versions.
  erewrite bind_ok by (by apply load_spec).
  cbn [object_of ob_dict]. by rewrite lookup_singleton_eq.
Qed.

Lemma filter_m_lift {A} (f : A -> M bool) (g : A -> result bool) l h :
  (forall x, f x h = (g x, h)) ->
  filter_m f l h = (filter_r g l, h).
Proof.
  intros Hf. induction l as [|x l IH]; [done|].
  cbn [filter_m filter_r].
  destruct (g x) as [b|e] eqn:E.
  - erewrite bind_ok by (by rewrite Hf, E). cbn.
    destruct (filter_r g l) as [ys|e'] eqn:E'.
    + by erewrite bind_ok by exact IH.
    + by erewrite bind_raise by exact IH.
  - erewrite bind_raise by (by rewrite Hf, E). done.
Qed.

(** [limit_versions] in the store with a number as limit: it reads the
    receiver, and when it returns, its result is a new object, the last of
    the heap, which is the instance that [limit_versions] on values gives. *)
Lemma Store_limit_number_spec h r l (n : number) op :
  h !! r = Some (object_of l) ->
  instance_ok l ->
  Store.limit_versions r (Store.LNum n) op h =
    match limit_versions l n op with
    | Ok l' => (Ok (length h), (h ++ [object_of l'])%list)
    | Raise e => (Raise e, h)
    end.
Proof.
  intros Hr Hok.
  pose proof (limit_versions_number_spec l n op Hok) as Hv.
  rewrite limit_versions_number_eq, Hv. cbn zeta.
  unfold Store.limit_versions, Store.limit_versions_with.
  erewrite bind_ok by (by apply get_versions_spec).
  cbn [Store.limit_is_int Store.apply_operator].
  set (kept := List.filter (holds op n) (versions l)).
  assert ((if is_int n
           then filter_m (fun version =>
                  i ← lift (py_int version); mret (operator op (PyInt i) n))
                  (versions l)
           else filter_m (fun version => mret (operator op version n))
                  (versions l)) h = (Ok kept, h)) as E.
  { destruct Hok as (Hf & _ & _). unfold kept, holds.
    destruct (is_int n).
    - rewrite (filter_m_lift _
                 (fun version => i ← py_int version; Ok (operator op (PyInt i) n))).
      + f_equal. apply filter_r_total. intros v Hv'.
        rewrite forallb_forall in Hf. by rewrite py_int_finite by auto.
      + intros v. unfold lift, mbind, M_bind. by destruct (py_int v).
    - rewrite (filter_m_lift _ (fun version => Ok (operator op version n)));
        [|done].
      f_equal. by apply filter_r_total. }
  erewrite bind_ok by exact E.
  destruct (is_nil kept) eqn:Hnil; [done|].
  erewrite bind_ok by (by eapply type_of_spec).
  rewrite Store_call_spec.
  destruct Hok as (Hf & Ha & Hin).
  rewrite construct_again;
    [done|by apply forallb_filter|by apply ascending_filter
    |by apply forallb_filter|by apply is_nil_false].
Qed.

(** C9.  On every instance, placed anywhere in a heap, a relational operator
    with a number as limit succeeds or fails as it does on values (C3); when
    it returns, the result is a new object, appended to the heap, of the
    class of the receiver; in both cases every object that was in the heap,
    the receiver among them, is as it was.  The operator on a class
    constructs the default instance, which has all versions of the class,
    and applies the operator of the instance to it. *)
Theorem C9_operators_allocate_and_keep_the_receiver :
  (forall cls args self (h : heap) ref op (limit : number),
     class_ok cls ->
     LanguageMeta__call__ cls args = Ok self ->
     h !! ref = Some (object_of self) ->
     Store.Language_op op ref (Store.LNum limit) h =
       match Language_op op self limit with
       | Ok r => (Ok (length h), (h ++ [object_of r])%list)
       | Raise e => (Raise e, h)
       end)
  /\ (forall cls args self (h : heap) ref op (limit : number) res h',
        class_ok cls ->
        LanguageMeta__call__ cls args = Ok self ->
        h !! ref = Some (object_of self) ->
        Store.Language_op op ref (Store.LNum limit) h = (res, h') ->
        (forall i o, h !! i = Some o -> h' !! i = Some o)
        /\ (forall r, res = Ok r ->
              h !! r = None
              /\ exists vs, h' !! r = Some (object_of {| lang_type := cls;
                                                         versions := vs |})))
  /\ (forall cls (h : heap) op limit,
        Store.LanguageMeta_op op cls limit h =
        Store.Language_op op (length h) limit
          (h ++ [object_of {| lang_type := cls;
                              versions := cls_versions cls |}])%list).
Proof.
  assert (forall cls args self (h : heap) ref op (limit : number),
     class_ok cls ->
     LanguageMeta__call__ cls args = Ok self ->
     h !! ref = Some (object_of self) ->
     Store.Language_op op ref (Store.LNum limit) h =
       match Language_op op self limit with
       | Ok r => (Ok (length h), (h ++ [object_of r])%list)
       | Raise e => (Raise e, h)
       end) as Hspec.
  { intros cls args self h ref op limit Hcls Hself Href.
    destruct (construct_ok _ _ _ Hcls Hself) as [_ Hok].
    unfold Store.Language_op. rewrite Language_op_eq.
    by apply Store_limit_number_spec. }
  split_and!; [done| |].
  - intros cls args self h ref op limit res h' Hcls Hself Href Hrun.
    rewrite (Hspec _ _ _ _ _ _ _ Hcls Hself Href) in Hrun.
    rewrite (Language_op_number_spec _ _ _ _ _ Hcls Hself) in Hrun.
    cbn zeta in Hrun.
    destruct (is_nil _); injection Hrun as <- <-.
    + split; [done|]. by intros r.
    + split.
      * intros i o Hi. by apply lookup_app_l_Some.
      * intros r [= <-]. split; [by apply lookup_ge_None_2|].
        eexists. apply lookup_new.
  - intros cls h op limit. unfold Store.LanguageMeta_op.
    erewrite bind_ok; [done|]. by rewrite Store_call_spec.
Qed.

(** In a heap that holds [Python()] at address 0, [>= 3.5] returns address
    1, a new [Python 3.5, 3.6], and address 0 still holds [Python()]. *)
Lemma C9_witness :
  class_ok Python
  /\ LanguageMeta__call__ Python [] = Ok Python_all
  /\ Store.Language_op op_ge 0 (Store.LNum 3.5%py) [object_of Python_all]
     = (Ok 1%nat,
        [object_of Python_all;
         object_of {| lang_type := Python; versions := [3.5; 3.6]%py |}])
  /\ Store.Language_op op_gt 0 (Store.LNum 10%py) [object_of Python_all]
     = (Raise ValueError_no_versions_left, [object_of Python_all]).
Proof.
  split; [exact Python_class_ok|]. split; [reflexivity|]. split.
  - exact (proj1 C9_operators_allocate_and_keep_the_receiver
             Python [] Python_all [object_of Python_all] 0%nat op_ge 3.5%py
             Python_class_ok eq_refl eq_refl).
  - exact (proj1 C9_operators_allocate_and_keep_the_receiver
             Python [] Python_all [object_of Python_all] 0%nat op_gt 10%py
             Python_class_ok eq_refl eq_refl).
Defined.

(** C2, as stated, fails: on [Python(3.3)], the last object of the heap,
    the assignment [self.versions = [2.7]] succeeds, and the instance then
    has the versions [2.7]. *)
Lemma C2_counterexample :
  Store.LanguageMeta__call__ Python [3.3]%py [] = (Ok 0%nat, [object_of Python_33])
  /\ Store.setattr 0 "versions" (VSeq [2.7]%py) [object_of Python_33]
     = (Ok (), [object_of {| lang_type := Python; versions := [2.7]%py |}])
  /\ Store.get_versions 0 [object_of {| lang_type := Python;
                                        versions := [2.7]%py |}]
     = (Ok [2.7]%py, [object_of {| lang_type := Python; versions := [2.7]%py |}]).
Proof.
  split_and!.
  - by rewrite Store_call_spec.
  - erewrite setattr_Language by reflexivity. cbn [insert list_insert].
    unfold object_of. cbn [lang_type versions].
    by rewrite insert_singleton_eq.
  - by erewrite get_versions_spec by reflexivity.
Qed.

Lemma store_tastes_keeps_class self id ts tastes taste_values (h : heap) d res h' :
  h !! self = Some {| ob_type := aspectclass id ts; ob_dict := d |} ->
  Store.aspectbase_store_tastes self tastes taste_values h = (res, h') ->
  exists d', h' !! self = Some {| ob_type := aspectclass id ts; ob_dict := d' |}.
Proof.
  revert taste_values h d. induction tastes as [|[name t] tastes IH];
    intros taste_values h d Hself; cbn [Store.aspectbase_store_tastes].
  - intros [= _ <-]. eauto.
  - destruct (cast_type t _) as [v|e] eqn:Ecast.
    + erewrite bind_ok by reflexivity.
      erewrite bind_ok by (by apply dict_setitem_spec).
      apply (IH _ _ (<[name := v]> d)). cbn [ob_type ob_dict].
      apply list_lookup_insert_eq. by eapply lookup_lt_Some.
    + erewrite bind_raise by reflexivity.
      intros [= _ <-]. eauto.
Qed.

(** C2, amended.  An instance of an aspect class ([aspectbase]) rejects
    every assignment to an attribute with [AttributeError], for every name
    and value, and the heap stays as it is.  [Language] has no such guard:
    on an instance of a language class the assignment to [versions]
    succeeds, for every value, and puts the value in the [__dict__] of the
    instance in place of the versions. *)
Theorem C2_only_aspect_instances_reject_assignment :
  (forall id tastes taste_values (h : heap) self h' name v,
     Store.aspectclass__call__ id tastes taste_values h = (Ok self, h') ->
     Store.setattr self name v h'
     = (Raise (AttributeError "can't set attributes of aspectclass instances"),
        h'))
  /\ (forall cls args (h : heap) self h' v,
        Store.LanguageMeta__call__ cls args h = (Ok self, h') ->
        exists l,
          LanguageMeta__call__ cls args = Ok l
          /\ h' !! self = Some (object_of l)
          /\ Store.setattr self "versions" v h'
             = (Ok (),
                <[self := {| ob_type := LanguageSub cls;
                             ob_dict := {[ "versions" := v ]} |}]> h')).
Proof.
  split.
  - intros id tastes taste_values h self h' name v.
    unfold Store.aspectclass__call__.
    erewrite bind_ok by reflexivity.
    set (o := {| ob_type := aspectclass id tastes; ob_dict := ∅ |}).
    destruct (Store.aspectbase__init__ (length h) taste_values (h ++ [o])%list)
      as [[[]|e] h1] eqn:Einit.
    2: { erewrite bind_raise by exact Einit. done. }
    erewrite bind_ok by exact Einit. intros [= <- <-].
    unfold Store.aspectbase__init__ in Einit.
    erewrite bind_ok in Einit by (apply load_spec, lookup_new).
    cbn [ob_type o] in Einit.
    eapply store_tastes_keeps_class in Einit as [d' Hd']; [|apply lookup_new].
    by eapply setattr_aspect.
  - intros cls args h self h' v. rewrite Store_call_spec.
    destruct (LanguageMeta__call__ cls args) as [l|e] eqn:El; [|done].
    intros [= <- <-]. exists l. split; [done|].
    assert (lang_type l = cls) as Hl.
    { unfold LanguageMeta__call__, Language__init__ in El.
      destruct (forallb _ args); [|done].
      by destruct args; injection El as <-. }
    split; [apply lookup_new|].
    erewrite setattr_Language.
    + by rewrite insert_singleton_eq.
    + rewrite lookup_new. unfold object_of. by rewrite Hl.
Qed.

(** An aspect with the taste [style] is built, and [self.style = "x"] on it
    raises; [Python(3.3)] is built, and [self.versions = [2.7]] succeeds. *)
Lemma C2_witness :
  Store.aspectclass__call__ 0 [("style", style_taste)] ∅ []
    = (Ok 0%nat,
       [{| ob_type := aspectclass 0 [("style", style_taste)];
           ob_dict := {[ "style" := VText "plain" ]} |}])
  /\ Store.setattr 0 "style" (VText "x")
       [{| ob_type := aspectclass 0 [("style", style_taste)];
           ob_dict := {[ "style" := VText "plain" ]} |}]
     = (Raise (AttributeError "can't set attributes of aspectclass instances"),
        [{| ob_type := aspectclass 0 [("style", style_taste)];
            ob_dict := {[ "style" := VText "plain" ]} |}])
  /\ Store.LanguageMeta__call__ Python [3.3]%py [] = (Ok 0%nat, [object_of Python_33])
  /\ exists l, LanguageMeta__call__ Python [3.3]%py = Ok l
       /\ [object_of Python_33] !! 0%nat = Some (object_of l)
       /\ Store.setattr 0 "versions" (VSeq [2.7]%py) [object_of Python_33]
          = (Ok (),
             <[0%nat := {| ob_type := LanguageSub Python;
                           ob_dict := {[ "versions" := VSeq [2.7]%py ]} |}]>
               [object_of Python_33]).
Proof.
  assert (Store.aspectclass__call__ 0 [("style", style_taste)] ∅ []
    = (Ok 0%nat,
       [{| ob_type := aspectclass 0 [("style", style_taste)];
           ob_dict := {[ "style" := VText "plain" ]} |}])) as Hbuild.
  { unfold Store.aspectclass__call__.
    erewrite bind_ok by reflexivity.
    erewrite bind_ok; [reflexivity|].
    unfold Store.aspectbase__init__.
    erewrite bind_ok by reflexivity. cbn.
    erewrite bind_ok by reflexivity.
    erewrite bind_ok by reflexivity. cbn.
    by rewrite insert_empty. }
  assert (Store.LanguageMeta__call__ Python [3.3]%py []
          = (Ok 0%nat, [object_of Python_33])) as Hpy
    by (by rewrite Store_call_spec).
  split; [exact Hbuild|]. split; [|split; [exact Hpy|]].
  - exact (proj1 C2_only_aspect_instances_reject_assignment
             0%nat [("style", style_taste)] ∅ [] 0%nat _ "style" (VText "x")
             Hbuild).
  - exact (proj2 C2_only_aspect_instances_reject_assignment
             Python [3.3]%py [] 0%nat _ (VSeq [2.7]%py) Hpy).
Defined.

(** ** Round trip through the text *)

Lemma append_nil_r s : s ++ EmptyString = s.
Proof.
  induction s as [|c s IH]; [done|].
  change (String c s ++ EmptyString) with (String c (s ++ EmptyString)). by rewrite IH.
Qed.

Lemma append_assoc a b c : (a ++ b) ++ c = a ++ (b ++ c).
Proof.
  induction a as [|x a IH]; [done|].
  change (String x (a ++ b) ++ c = String x (a ++ (b ++ c))).
  change (String x ((a ++ b) ++ c) = String x (a ++ (b ++ c))).
  by rewrite IH.
Qed.

(** A piece without comma, followed by the end or by a comma, is a piece of
    [re.split]. *)
Lemma re_split_piece t rest :
  no_comma t = true ->
  (rest = EmptyString \/ exists r, rest = String "," r) ->
  re_split_from false (t ++ rest)
  = let '(f, ts) := re_split_from false rest in (t ++ f, ts).
Proof.
  intros Ht Hrest. induction t as [|c t IH].
  - change (EmptyString ++ rest) with rest. by destruct (re_split_from false rest).
  - cbn in Ht. apply andb_prop in Ht as [Hc Ht]. apply negb_true_iff in Hc.
    change (String c t ++ rest) with (String c (t ++ rest)).
    cbn [re_split_from andb]. rewrite Hc, (IH Ht).
    by destruct (re_split_from false rest).
Qed.

Lemma single_word_no_comma t : single_word t = true -> no_comma t = true.
Proof.
  unfold single_word, no_comma. rewrite !forallb_forall.
  intros H c Hc. by apply H, andb_prop in Hc as [_ ?].
Qed.

Lemma re_split_word_after_comma t rest :
  single_word t = true ->
  (rest = EmptyString \/ exists r, rest = String "," r) ->
  re_split_from true (t ++ rest) = re_split_from false (t ++ rest).
Proof.
  intros Ht Hrest. destruct t as [|c t].
  - change (EmptyString ++ rest) with rest.
    destruct Hrest as [->|[r ->]]; [done|]. done.
  - rewrite single_word_cons in Ht.
    apply andb_prop in Ht as [[Hc _]%andb_prop _]. apply negb_true_iff in Hc.
    change (String c t ++ rest) with (String c (t ++ rest)).
    cbn [re_split_from]. by rewrite Hc.
Qed.

(** The words joined by [", "] are the pieces of [re.split]. *)
Lemma re_split_join t ts :
  forallb single_word (t :: ts) = true ->
  re_split_from true (join ", " (t :: ts)) = (t, ts).
Proof.
  revert t. induction ts as [|t2 ts IH]; intros t Hall.
  - cbn in Hall. apply andb_prop in Hall as [Ht _].
    change (join ", " [t]) with t. rewrite <- (append_nil_r t) at 1.
    rewrite re_split_word_after_comma, re_split_piece;
      auto using single_word_no_comma.
    cbn. by rewrite append_nil_r.
  - cbn [forallb] in Hall. apply andb_prop in Hall as [Ht Hall].
    change (join ", " (t :: t2 :: ts))
      with (t ++ String "," (String " " (join ", " (t2 :: ts)))).
    rewrite re_split_word_after_comma, re_split_piece;
      eauto using single_word_no_comma.
    cbn [re_split_from andb]. change (is_space " ") with true.
    change (is_comma ",") with true. cbn iota.
    rewrite (IH t2 Hall). by rewrite append_nil_r.
Qed.

Lemma no_comma_app a b : no_comma (a ++ b) = no_comma a && no_comma b.
Proof. unfold no_comma. by rewrite list_ascii_app, forallb_app. Qed.

(** The pieces of the text of an instance. *)
Lemma re_split_str name t ts :
  no_comma name = true ->
  forallb single_word (t :: ts) = true ->
  re_split (name ++ " " ++ join ", " (t :: ts)) = (name ++ " " ++ t, ts).
Proof.
  intros Hname Hall. unfold re_split.
  pose proof Hall as Hall'. cbn [forallb] in Hall'.
  apply andb_prop in Hall' as [Ht Hts].
  assert (no_comma (name ++ " " ++ t) = true) as Hnc.
  { rewrite !no_comma_app, Hname. by rewrite (single_word_no_comma t). }
  destruct ts as [|t2 ts].
  - change (join ", " [t]) with t.
    rewrite <- (append_nil_r (name ++ " " ++ t)) at 1.
    rewrite <- !append_assoc, append_nil_r.
    rewrite <- (append_nil_r ((name ++ " ") ++ t)) at 1.
    rewrite re_split_piece; [|by rewrite append_assoc|by left].
    cbn. by rewrite append_nil_r.
  - change (join ", " (t :: t2 :: ts))
      with (t ++ String "," (String " " (join ", " (t2 :: ts)))).
    rewrite <- !append_assoc.
    rewrite re_split_piece; [|by rewrite append_assoc|eauto].
    cbn [re_split_from andb]. change (is_space " ") with true.
    change (is_comma ",") with true. cbn iota.
    rewrite (re_split_join t2 ts Hts). by rewrite append_nil_r.
Qed.

Lemma operator_eq_le a b :
  is_finite b = true ->
  operator op_eq a b = true <-> num_le a b /\ num_le b a.
Proof.
  intros Hb. split.
  - intros E. pose proof (operator_eq_finite _ _ Hb E) as Ha.
    destruct (value_of_finite _ Ha) as (x & j & Ea).
    destruct (value_of_finite _ Hb) as (y & k & Eb).
    unfold operator, num_compare in E. unfold num_le. rewrite Ea, Eb in *.
    destruct (Z.compare_spec (x * 10 ^ Z.of_nat k) (y * 10 ^ Z.of_nat j));
      try done. lia.
  - intros [H1 H2]. unfold num_le in H1, H2. unfold operator, num_compare.
    destruct (value_of a) as [| |x j|]; try done.
    destruct (value_of b) as [| |y k|]; try done.
    destruct (Z.compare_spec (x * 10 ^ Z.of_nat k) (y * 10 ^ Z.of_nat j));
      try done; lia.
Qed.

Lemma operator_eq_trans a b c :
  is_finite b = true -> is_finite c = true ->
  operator op_eq a b = true -> operator op_eq b c = true ->
  operator op_eq a c = true.
Proof.
  intros Hb Hc [H1 H2]%operator_eq_le [H3 H4]%operator_eq_le; [|done..].
  apply operator_eq_le; [done|].
  split; [by apply (num_le_trans a b c)|by apply (num_le_trans c b a)].
Qed.

Lemma seq_eq_finite fs vs :
  seq_eq fs vs -> forallb is_finite vs = true -> forallb is_finite fs = true.
Proof.
  induction 1 as [|f v fs vs Hfv _ IH]; [done|]. cbn.
  intros [Hv Hvs]%andb_prop. rewrite IH by done.
  by rewrite (operator_eq_finite _ _ Hv Hfv).
Qed.

Lemma seq_eq_ascending fs vs :
  seq_eq fs vs -> forallb is_finite vs = true ->
  ascending vs -> ascending fs.
Proof.
  induction 1 as [|f v fs vs Hfv Hrest IH]; [constructor|].
  cbn. intros [Hv Hvs]%andb_prop Hasc.
  inversion_clear Hasc as [|? ? Hle Hasc'].
  constructor; [|by apply IH].
  apply operator_eq_le in Hfv as [Hfv _]; [|done].
  clear IH Hasc'. induction Hrest as [|f' v' fs vs Hfv' _ IH]; [constructor|].
  cbn in Hvs. apply andb_prop in Hvs as [Hv' Hvs].
  inversion_clear Hle as [|? ? Hvv' Hle'].
  constructor; [|by apply IH].
  apply operator_eq_le in Hfv' as [_ Hvf']; [|done].
  apply (num_le_trans f v f'); [done..|].
  by apply (num_le_trans v v' f').
Qed.

Lemma seq_eq_all_in cls fs vs :
  seq_eq fs vs -> forallb is_finite (cls_versions cls) = true ->
  all_in cls vs = true -> all_in cls fs = true.
Proof.
  unfold all_in.
  induction 1 as [|f v fs vs Hfv _ IH]; [done|]. cbn [forallb].
  intros Hcls [Hv Hvs]%andb_prop. rewrite IH by done.
  rewrite andb_true_r. unfold py_in in *.
  apply existsb_exists in Hv as (w & Hw & Hvw).
  apply existsb_exists. exists w. split; [done|].
  rewrite forallb_forall in Hcls.
  apply (operator_eq_trans f v w); auto.
  eapply operator_eq_finite; eauto.
Qed.

(** The texts of numbers that read back are read as numbers equal to them. *)
Lemma map_r_reads_back vs :
  forallb reads_back vs = true ->
  exists fs,
    map_r (fun s => f ← py_float s; Ok (PyFloat f)) (map str_number vs) = Ok fs
    /\ seq_eq fs vs.
Proof.
  induction vs as [|v vs IH]; cbn [forallb map map_r].
  - intros _. exists []. split; [done|constructor].
  - intros [[_ Hv]%andb_prop Hvs]%andb_prop.
    destruct (IH Hvs) as (fs & E & Heq). rewrite E.
    destruct (py_float (str_number v)) as [f|e]; [|done].
    exists (PyFloat f :: fs). split; [done|]. by constructor.
Qed.

Lemma reads_back_nonempty v : reads_back v = true -> str_number v <> EmptyString.
Proof.
  unfold reads_back. intros [_ H]%andb_prop E. by rewrite E in H.
Qed.

(** C8, as stated, fails.  The text of the default instance of a class
    without versions ends with a blank, and no class answers to that name;
    the text of an instance of a second class registered as [Python] is
    resolved with the first class registered as [Python]; and the [int]
    version [2**53 + 1] is read back as the float [2**53], which is no
    version of its class. *)
Lemma C8_counterexample :
  LanguageMeta__call__ Plain [] = Ok {| lang_type := Plain; versions := [] |}
  /\ Language__str__ {| lang_type := Plain; versions := [] |} = "Plain "
  /\ LanguageMeta__getitem__ [Python; CPP; Plain] "Plain "
     = Raise (AttributeError EmptyString)
  /\ LanguageMeta__call__ Python_again [3.7]%py
     = Ok {| lang_type := Python_again; versions := [3.7]%py |}
  /\ Language__str__ {| lang_type := Python_again; versions := [3.7]%py |}
     = "Python 3.7"
  /\ LanguageMeta__getitem__ [Python; Python_again] "Python 3.7"
     = Raise AssertionError
  /\ LanguageMeta__call__ Big []
     = Ok {| lang_type := Big; versions := [PyInt 9007199254740993] |}
  /\ Language__str__ {| lang_type := Big;
                        versions := [PyInt 9007199254740993] |}
     = "Big 9007199254740993"
  /\ LanguageMeta__getitem__ [Big] "Big 9007199254740993"
     = Raise AssertionError.
Proof. split_and!; by vm_compute. Qed.

(** C8, amended.  Let an instance have at least one version, each with a
    text that [float()] reads back as an equal number, and let its class
    have a qualified name that is a single non-empty word and no special
    name, under which lookup finds this class.  Then resolving the text of
    the instance succeeds and gives an instance of the same class whose
    versions are equal, one by one, to those of the original. *)
Theorem C8_round_trip_through_text (all : registry) cls args self :
  class_ok cls ->
  LanguageMeta__call__ cls args = Ok self ->
  versions self <> [] ->
  forallb reads_back (versions self) = true ->
  single_word (cls_qualname cls) = true ->
  cls_qualname cls <> EmptyString ->
  special_name (cls_qualname cls) = false ->
  LanguageMeta__getattr__ all (cls_qualname cls) = Ok cls ->
  exists r,
    LanguageMeta__getitem__ all (Text (Language__str__ self)) = Ok r
    /\ lang_type r = cls
    /\ seq_eq (versions r) (versions self).
Proof.
  intros Hcls Hself Hne Hback Hword Hname Hspecial Hfind.
  destruct (construct_ok _ _ _ Hcls Hself) as [Htype (Hfin & Hasc & Hin)].
  destruct self as [cls' vs]. cbn [lang_type versions] in *. subst cls'.
  destruct vs as [|v vs]; [done|].
  pose proof Hback as Hback'. cbn [forallb] in Hback'.
  apply andb_prop in Hback' as [Hv Hvs].
  pose proof (reads_back_nonempty v Hv) as Hvne.
  pose proof Hv as Hv'. apply andb_prop in Hv' as [Hvw Hvf].
  destruct (py_float (str_number v)) as [f|e] eqn:Ef; [|done].
  destruct (map_r_reads_back vs Hvs) as (fs & Efs & Heq).
  assert (forallb single_word (map str_number (v :: vs)) = true) as Hwords.
  { apply forallb_forall. intros t (w & <- & Hw)%in_map_iff.
    rewrite forallb_forall in Hback. by apply Hback, andb_prop in Hw as [? _]. }
  assert (parse_lang_str (Text (Language__str__
            {| lang_type := cls; versions := v :: vs |}))
          = Ok (cls_qualname cls, PyFloat f :: fs)) as Hparse.
  { eapply parse_lang_str_trailing_number.
    - cbn [py_str]. unfold Language__str__. cbn [lang_type versions map].
      apply re_split_str; [by apply single_word_no_comma|exact Hwords].
    - exact Efs.
    - by apply rsplit1_two_words.
    - exact Ef. }
  assert (seq_eq (PyFloat f :: fs) (v :: vs)) as Hseq by (by constructor).
  exists {| lang_type := cls; versions := PyFloat f :: fs |}.
  split; [|by split].
  unfold LanguageMeta__getitem__, py_getattr. rewrite Hparse. cbn.
  rewrite Hspecial, Hfind. cbn.
  destruct Hcls as [Hcfin _].
  apply construct_again; [| | |done].
  - by apply (seq_eq_finite _ _ Hseq).
  - by apply (seq_eq_ascending _ _ Hseq).
  - by apply (seq_eq_all_in cls _ _ Hseq).
Qed.

(** [Language[str(Python(3.4, 3.6))]] is [Python 3.4, 3.6], and
    [Language[str(CPP(11))]] is [C++ 11.0], whose version equals [11]. *)
Lemma C8_witness :
  class_ok CPP
  /\ LanguageMeta__call__ CPP [11]%py = Ok {| lang_type := CPP; versions := [11]%py |}
  /\ Language__str__ {| lang_type := CPP; versions := [11]%py |} = "C++ 11"
  /\ forallb reads_back [11]%py = true
  /\ single_word "C++" = true
  /\ special_name "C++" = false
  /\ LanguageMeta__getattr__ [Python; CPP] "C++" = Ok CPP
  /\ exists r,
       LanguageMeta__getitem__ [Python; CPP] "C++ 11" = Ok r
       /\ lang_type r = CPP
       /\ seq_eq (versions r) [11]%py.
Proof.
  split; [exact CPP_class_ok|]. do 6 (split; [reflexivity|]).
  refine (C8_round_trip_through_text [Python; CPP] CPP [11]%py
            {| lang_type := CPP; versions := [11]%py |}
            CPP_class_ok eq_refl _ eq_refl eq_refl _ eq_refl eq_refl);
    discriminate.
Defined.

(** ** Membership of texts and instances *)

Lemma seq_eq_sym fs vs :
  forallb is_finite vs = true -> seq_eq fs vs -> seq_eq vs fs.
Proof.
  intros Hvs Heq. pose proof (seq_eq_finite _ _ Heq Hvs) as Hfs.
  induction Heq as [|f v fs vs Hfv _ IH]; [constructor|].
  cbn in Hvs, Hfs.
  apply andb_prop in Hvs as [Hv Hvs]. apply andb_prop in Hfs as [Hf Hfs].
  constructor; [|by apply IH].
  apply operator_eq_le in Hfv as [? ?]; [|done]. by apply operator_eq_le.
Qed.

Lemma py_float_nonempty t f : py_float t = Ok f -> t <> EmptyString.
Proof. by intros H ->. Qed.

Lemma map_r_float ts :
  map_r (fun s => f ← py_float s; Ok (PyFloat f)) ts
  = (fs ← map_r py_float ts; Ok (map PyFloat fs)).
Proof.
  induction ts as [|t ts IH]; [done|]. cbn [map_r].
  destruct (py_float t); cbn; [|done]. rewrite IH.
  by destruct (map_r py_float ts).
Qed.

(** A single word, a blank and numerals joined by [", "] are parsed to
    the word and the numbers that [float()] reads. *)
Lemma parse_name_numerals name t ts f fs :
  single_word name = true -> name <> EmptyString ->
  forallb single_word (t :: ts) = true ->
  py_float t = Ok f ->
  map_r py_float ts = Ok fs ->
  parse_lang_str (Text (name ++ " " ++ join ", " (t :: ts)))
  = Ok (name, map PyFloat (f :: fs)).
Proof.
  intros Hword Hname Hwords Ef Efs.
  pose proof Hwords as Hwords'. cbn [forallb] in Hwords'.
  apply andb_prop in Hwords' as [Ht _].
  eapply parse_lang_str_trailing_number.
  - cbn [py_str]. apply re_split_str; [by apply single_word_no_comma|done].
  - by rewrite map_r_float, Efs.
  - apply rsplit1_two_words; [done..|]. by eapply py_float_nonempty.
  - exact Ef.
Qed.

(** The text of an instance with versions that read back is parsed to the
    qualified name of its class and to versions equal to its own. *)
Lemma parse_str_instance cls vs :
  vs <> [] ->
  forallb reads_back vs = true ->
  single_word (cls_qualname cls) = true ->
  cls_qualname cls <> EmptyString ->
  exists fs,
    parse_lang_str (Instance {| lang_type := cls; versions := vs |})
    = Ok (cls_qualname cls, fs)
    /\ seq_eq fs vs.
Proof.
  intros Hne Hback Hword Hname. destruct vs as [|v vs]; [done|].
  pose proof Hback as Hback'. cbn [forallb] in Hback'.
  apply andb_prop in Hback' as [Hv Hvs].
  pose proof Hv as Hv'. apply andb_prop in Hv' as [Hvw Hvf].
  destruct (py_float (str_number v)) as [f|e] eqn:Ef; [|done].
  destruct (map_r_reads_back vs Hvs) as (fs & Efs & Heq).
  rewrite map_r_float in Efs.
  destruct (map_r py_float (map str_number vs)) as [fs'|e] eqn:Efs';
    [|done].
  injection Efs as <-.
  assert (forallb single_word (map str_number (v :: vs)) = true) as Hwords.
  { apply forallb_forall. intros t (w & <- & Hw)%in_map_iff.
    rewrite forallb_forall in Hback. by apply Hback, andb_prop in Hw as [? _]. }
  exists (map PyFloat (f :: fs')). split; [|by constructor].
  cbn [py_str]. unfold Language__str__. cbn [lang_type versions].
  by apply parse_name_numerals.
Qed.

(** Membership of an instance with versions, in any class. *)
Lemma contains_instance cls vs other :
  vs <> [] ->
  forallb is_finite vs = true ->
  forallb reads_back vs = true ->
  single_word (cls_qualname cls) = true ->
  cls_qualname cls <> EmptyString ->
  forallb is_finite (cls_versions other) = true ->
  LanguageMeta__contains__ other
    (Instance {| lang_type := cls; versions := vs |})
  = Ok (answers_to (cls_qualname cls) other && all_in other vs).
Proof.
  intros Hne Hfin Hback Hword Hname Hother.
  destruct (parse_str_instance cls vs Hne Hback Hword Hname)
    as (fs & Hparse & Heq).
  unfold LanguageMeta__contains__. rewrite Hparse. cbn.
  unfold answers_to. do 2 f_equal.
  assert (is_nil fs = false) as ->.
  { destruct Heq; [done|reflexivity]. }
  cbn [orb]. fold (all_in other fs).
  destruct (all_in other vs) eqn:Evs.
  - by apply (seq_eq_all_in other fs vs Heq Hother).
  - destruct (all_in other fs) eqn:Efs; [|done].
    rewrite <- Evs. symmetry.
    apply (seq_eq_all_in other vs fs); [by apply seq_eq_sym|done..].
Qed.

Lemma answers_to_qualname cls : answers_to (cls_qualname cls) cls = true.
Proof.
  unfold answers_to, names_of. rewrite map_app, existsb_app.
  cbn [map existsb]. by rewrite String.eqb_refl, orb_true_r.
Qed.

(** C7, as stated, fails.  The default instance of [Plain], a class
    without versions, has the name of its class and specifies no version,
    and it is not in [Plain]: its text ends with a blank.  The text
    [Objective C] is the qualified name of [ObjectiveC] and specifies no
    version, and it is not in that class: the parser yields the name
    [Objective] (C5). *)
Lemma C7_counterexample :
  LanguageMeta__call__ Plain [] = Ok {| lang_type := Plain; versions := [] |}
  /\ LanguageMeta__contains__ Plain
       (Instance {| lang_type := Plain; versions := [] |}) = Ok false
  /\ cls_qualname ObjectiveC = "Objective C"
  /\ LanguageMeta__contains__ ObjectiveC "Objective C" = Ok false.
Proof. split_and!; by vm_compute. Qed.

(** C7, amended.  For a candidate whose name is a single word, membership
    is decided by the name and the versions.  A text that is a single word
    is in a class exactly when the class answers to it: the word equals,
    case ignored, an alias, the qualified name or the declared name.  A
    text made of a single word, a blank and numerals joined by a comma and
    a blank is in a class exactly when the class answers to the word and
    every number that [float()] reads from a numeral is a version of the
    class.  An instance with at least one version, whose versions have
    texts that read back and whose class has a single non-empty word as
    qualified name, is in a class exactly when that class answers to this
    qualified name and has every version of the instance.  ["Python 2.6"]
    is not in [Python], ["Python"] is. *)
Theorem C7_membership_of_texts_and_instances :
  (forall cls ident,
     single_word ident = true ->
     LanguageMeta__contains__ cls (Text ident) = Ok (answers_to ident cls))
  /\ (forall cls name ts fs,
        single_word name = true -> name <> EmptyString ->
        ts <> [] -> forallb single_word ts = true ->
        map_r py_float ts = Ok fs ->
        LanguageMeta__contains__ cls (Text (name ++ " " ++ join ", " ts))
        = Ok (answers_to name cls && all_in cls (map PyFloat fs)))
  /\ (forall cls args self other,
        class_ok cls ->
        LanguageMeta__call__ cls args = Ok self ->
        versions self <> [] ->
        forallb reads_back (versions self) = true ->
        single_word (cls_qualname cls) = true ->
        cls_qualname cls <> EmptyString ->
        forallb is_finite (cls_versions other) = true ->
        LanguageMeta__contains__ other (Instance self)
        = Ok (answers_to (cls_qualname cls) other
              && all_in other (versions self)))
  /\ LanguageMeta__contains__ Python "Python 2.6" = Ok false
  /\ LanguageMeta__contains__ Python "Python" = Ok true.
Proof.
  split_and!; [| | |by vm_compute..].
  - intros cls ident Hword. by apply contains_single_word.
  - intros cls name [|t ts] fs Hword Hname Hne Hwords Efs; [done|].
    cbn [map_r] in Efs.
    destruct (py_float t) as [f|e] eqn:Ef; [|done]. cbn in Efs.
    destruct (map_r py_float ts) as [fs'|e] eqn:Efs'; [|done].
    injection Efs as <-.
    unfold LanguageMeta__contains__.
    rewrite (parse_name_numerals name t ts f fs') by done.
    reflexivity.
  - intros cls args self other Hcls Hself Hne Hback Hword Hname Hother.
    destruct (construct_ok _ _ _ Hcls Hself) as [Htype (Hfin & _ & _)].
    destruct self as [cls' vs]. cbn [lang_type versions] in *. subst cls'.
    by apply contains_instance.
Qed.

(** ['pY 3.6, 3.5' in Language.Python], and [Python(3.3, 3.4)] is in
    [Python] and not in [C++]. *)
Lemma C7_witness :
  LanguageMeta__contains__ Python "pY 3.6, 3.5" = Ok true
  /\ class_ok Python
  /\ LanguageMeta__call__ Python [3.3; 3.4]%py = Ok Python_33_34
  /\ forallb reads_back (versions Python_33_34) = true
  /\ LanguageMeta__contains__ Python (Instance Python_33_34) = Ok true
  /\ LanguageMeta__contains__ CPP (Instance Python_33_34) = Ok false.
Proof.
  destruct C7_membership_of_texts_and_instances as (_ & Htext & Hinst & _).
  assert (versions Python_33_34 <> []) as Hne by discriminate.
  assert (cls_qualname Python <> EmptyString) as Hname by discriminate.
  assert (forallb reads_back (versions Python_33_34) = true) as Hback
    by (by vm_compute).
  split_and!.
  - refine (eq_trans (Htext Python "pY" ["3.6"; "3.5"] [_; _]
                        eq_refl _ _ eq_refl eq_refl) _);
      [discriminate..|by vm_compute].
  - exact Python_class_ok.
  - by vm_compute.
  - exact Hback.
  - refine (eq_trans (Hinst Python [3.3; 3.4]%py Python_33_34 Python
                        Python_class_ok _ Hne Hback eq_refl Hname _) _);
      by vm_compute.
  - refine (eq_trans (Hinst Python [3.3; 3.4]%py Python_33_34 CPP
                        Python_class_ok _ Hne Hback eq_refl Hname _) _);
      by vm_compute.
Defined.

(** ** Further properties: construction *)

(** X1.  [Language.__init__]: construction raises [AssertionError] exactly
    when some argument is no version of the class; otherwise it returns an
    instance of the class whose versions are the arguments, in ascending
    order, or all versions of the class when there is no argument. *)
Theorem X1_construction_outcome cls args :
  forallb is_finite (cls_versions cls) = true ->
  (LanguageMeta__call__ cls args = Raise AssertionError
   <-> exists v, In v args /\ py_in v (cls_versions cls) = false)
  /\ ((forall v, In v args -> py_in v (cls_versions cls) = true) ->
      exists self,
        LanguageMeta__call__ cls args = Ok self
        /\ lang_type self = cls
        /\ (args = [] -> versions self = cls_versions cls)
        /\ (args <> [] -> Permutation (versions self) args
                          /\ ascending (versions self))).
Proof.
  intros Hfin. unfold LanguageMeta__call__, Language__init__. split.
  - destruct (forallb _ args) eqn:E.
    + split; [by destruct args|].
      intros (v & Hv & Hnot). rewrite forallb_forall in E.
      rewrite (E v Hv) in Hnot. done.
    + split; [|done]. intros _.
      apply not_true_iff_false in E.
      destruct (existsb (fun v => negb (py_in v (cls_versions cls))) args) eqn:Ex.
      * apply existsb_exists in Ex as (v & Hv & Hn).
        exists v. split; [done|]. by apply negb_true_iff.
      * exfalso. apply E, forallb_forall. intros v Hv.
        destruct (py_in v (cls_versions cls)) eqn:Ev; [done|].
        assert (existsb (fun v => negb (py_in v (cls_versions cls))) args = true)
          as Hex; [|congruence].
        apply existsb_exists. exists v. by rewrite Ev.
  - intros Hall. apply forallb_forall in Hall. rewrite Hall.
    destruct args as [|a args].
    + eexists. split; [done|]. split; [done|]. split; [done|]. done.
    + eexists. split; [done|]. split; [done|]. split; [done|].
      intros _. cbn [versions]. split; [apply sorted_perm|].
      apply sorted_is_ascending. by eapply forallb_py_in_finite.
Qed.

(** [Python(3.6, 3.3)] has the versions [3.3, 3.6]; [Python(2.6)] raises. *)
Lemma X1_witness :
  forallb is_finite (cls_versions Python) = true
  /\ LanguageMeta__call__ Python [2.6]%py = Raise AssertionError
  /\ exists self,
       LanguageMeta__call__ Python [3.6; 3.3]%py = Ok self
       /\ lang_type self = Python
       /\ ([3.6; 3.3]%py = [] -> versions self = cls_versions Python)
       /\ ([3.6; 3.3]%py <> [] -> Permutation (versions self) [3.6; 3.3]%py
                                  /\ ascending (versions self)).
Proof.
  split; [reflexivity|]. split.
  - apply (proj1 (X1_construction_outcome Python [2.6]%py eq_refl)).
    exists 2.6%py. split; [by left|reflexivity].
  - apply (proj2 (X1_construction_outcome Python [3.6; 3.3]%py eq_refl)).
    intros v [<-|[<-|[]]]; reflexivity.
Defined.

(** X2.  Constructing again from the versions of an instance gives the
    same instance: [type(self)( *self.versions)] is [self] in class and
    versions. *)
Theorem X2_construction_from_own_versions cls args self :
  class_ok cls ->
  LanguageMeta__call__ cls args = Ok self ->
  versions self <> [] ->
  LanguageMeta__call__ cls (versions self) = Ok self.
Proof.
  intros Hcls Hself Hne.
  destruct (construct_ok _ _ _ Hcls Hself) as [<- (Hf & Ha & Hin)].
  rewrite construct_again by done. by destruct self.
Qed.

Lemma X2_witness :
  class_ok Python
  /\ LanguageMeta__call__ Python [3.4; 3.3]%py = Ok Python_33_34
  /\ LanguageMeta__call__ Python (versions Python_33_34) = Ok Python_33_34.
Proof.
  split; [exact Python_class_ok|]. split; [reflexivity|].
  refine (X2_construction_from_own_versions Python [3.4; 3.3]%py Python_33_34
            Python_class_ok eq_refl _).
  discriminate.
Defined.

(** ** Further properties: limiting *)

Lemma filter_filter {A} (p q : A -> bool) l :
  List.filter q (List.filter p l) = List.filter (fun x => p x && q x) l.
Proof.
  induction l as [|x l IH]; [done|]. cbn.
  destruct (p x); cbn; [|done]. destruct (q x); by rewrite IH.
Qed.

Lemma filter_ext_in {A} (p q : A -> bool) l :
  (forall x, In x l -> p x = q x) -> List.filter p l = List.filter q l.
Proof.
  induction l as [|x l IH]; intros H; [done|]. cbn.
  rewrite (H x) by (by left). rewrite IH by (intros; apply H; by right). done.
Qed.

Lemma limited_instance_ok self kept :
  instance_ok self ->
  instance_ok {| lang_type := lang_type self;
                 versions := List.filter kept (versions self) |}.
Proof.
  intros (Hf & Ha & Hin). unfold instance_ok. cbn [versions lang_type].
  auto using forallb_filter, ascending_filter.
Qed.

(** X3.  Two restrictions in a row keep the versions that pass both: when
    [self <op1> l1] returns [a], then [a <op2> l2] keeps exactly the
    versions of [self] for which both comparisons hold, and raises
    [ValueError('No versions left')] when there is none. *)
Theorem X3_restrictions_compose cls args self op1 (l1 : number) op2 (l2 : number) a :
  class_ok cls ->
  LanguageMeta__call__ cls args = Ok self ->
  Language_op op1 self l1 = Ok a ->
  Language_op op2 a l2 =
    let kept := List.filter (fun v => holds op1 l1 v && holds op2 l2 v)
                            (versions self) in
    if is_nil kept then Raise ValueError_no_versions_left
    else Ok {| lang_type := cls; versions := kept |}.
Proof.
  intros Hcls Hself Ha.
  destruct (construct_ok _ _ _ Hcls Hself) as [<- Hok].
  rewrite Language_op_eq, limit_versions_number_eq in Ha.
  rewrite limit_versions_number_spec in Ha by done. cbn zeta in Ha.
  destruct (is_nil _); [done|]. injection Ha as <-.
  rewrite Language_op_eq, limit_versions_number_eq.
  rewrite limit_versions_number_spec by (by apply limited_instance_ok).
  cbn [versions lang_type]. by rewrite filter_filter.
Qed.

(** [(Python > 3.3) <= 3.5] is [Python 3.4, 3.5]. *)
Lemma X3_witness :
  class_ok Python
  /\ LanguageMeta__call__ Python [] = Ok Python_all
  /\ Language_op op_gt Python_all 3.3%py
     = Ok {| lang_type := Python; versions := [3.4; 3.5; 3.6]%py |}
  /\ Language_op op_le {| lang_type := Python; versions := [3.4; 3.5; 3.6]%py |}
       3.5%py
     = Ok {| lang_type := Python; versions := [3.4; 3.5]%py |}.
Proof.
  split; [exact Python_class_ok|]. split; [reflexivity|].
  split; [by vm_compute|].
  refine (eq_trans
            (X3_restrictions_compose Python [] Python_all op_gt 3.3%py
               op_le 3.5%py
               {| lang_type := Python; versions := [3.4; 3.5; 3.6]%py |}
               Python_class_ok eq_refl _) _);
    by vm_compute.
Defined.

(** X4.  The order of two restrictions does not matter: when both
    [self <op1> l1] and [self <op2> l2] return, restricting the first result
    by [op2 l2] and the second by [op1 l1] give the same outcome. *)
Theorem X4_restrictions_commute cls args self op1 (l1 : number) op2 (l2 : number) a b :
  class_ok cls ->
  LanguageMeta__call__ cls args = Ok self ->
  Language_op op1 self l1 = Ok a ->
  Language_op op2 self l2 = Ok b ->
  Language_op op2 a l2 = Language_op op1 b l1.
Proof.
  intros Hcls Hself Ha Hb.
  destruct (construct_ok _ _ _ Hcls Hself) as [<- Hok].
  rewrite Language_op_eq, limit_versions_number_eq in Ha, Hb.
  rewrite limit_versions_number_spec in Ha, Hb by done. cbn zeta in Ha, Hb.
  destruct (is_nil (List.filter (holds op1 l1) _)); [done|].
  destruct (is_nil (List.filter (holds op2 l2) _)); [done|].
  injection Ha as <-. injection Hb as <-.
  rewrite !Language_op_eq, !limit_versions_number_eq.
  rewrite !limit_versions_number_spec by (by apply limited_instance_ok).
  cbn [versions lang_type]. rewrite !filter_filter.
  rewrite (filter_ext_in (fun v => holds op1 l1 v && holds op2 l2 v)
             (fun v => holds op2 l2 v && holds op1 l1 v)); [done|].
  intros v _. apply andb_comm.
Qed.

Lemma X4_witness :
  class_ok Python
  /\ LanguageMeta__call__ Python [] = Ok Python_all
  /\ Language_op op_le {| lang_type := Python; versions := [3.4; 3.5; 3.6]%py |}
       3.5%py
     = Language_op op_gt
         {| lang_type := Python; versions := [2.7; 3.3; 3.4; 3.5]%py |} 3.3%py.
Proof.
  split; [exact Python_class_ok|]. split; [reflexivity|].
  refine (X4_restrictions_commute Python [] Python_all op_gt 3.3%py
            op_le 3.5%py
            {| lang_type := Python; versions := [3.4; 3.5; 3.6]%py |}
            {| lang_type := Python; versions := [2.7; 3.3; 3.4; 3.5]%py |}
            Python_class_ok eq_refl _ _);
    by vm_compute.
Defined.

(** X5.  A restriction is idempotent: applied to its own result it returns
    that result again. *)
Theorem X5_restriction_idempotent cls args self op (limit : number) a :
  class_ok cls ->
  LanguageMeta__call__ cls args = Ok self ->
  Language_op op self limit = Ok a ->
  Language_op op a limit = Ok a.
Proof.
  intros Hcls Hself Ha.
  destruct (construct_ok _ _ _ Hcls Hself) as [<- Hok].
  rewrite Language_op_eq, limit_versions_number_eq in Ha.
  rewrite limit_versions_number_spec in Ha by done. cbn zeta in Ha.
  destruct (is_nil _) eqn:Hnil; [done|]. injection Ha as <-.
  rewrite Language_op_eq, limit_versions_number_eq.
  rewrite limit_versions_number_spec by (by apply limited_instance_ok).
  cbn [versions lang_type]. rewrite filter_filter.
  rewrite (filter_ext_in _ (holds op limit)) by (intros; apply andb_diag).
  by rewrite Hnil.
Qed.

Lemma X5_witness :
  class_ok Python
  /\ LanguageMeta__call__ Python [] = Ok Python_all
  /\ Language_op op_eq {| lang_type := Python; versions := [3.3; 3.4; 3.5; 3.6]%py |}
       3%py
     = Ok {| lang_type := Python; versions := [3.3; 3.4; 3.5; 3.6]%py |}.
Proof.
  split; [exact Python_class_ok|]. split; [reflexivity|].
  refine (X5_restriction_idempotent Python [] Python_all op_eq 3%py
            {| lang_type := Python; versions := [3.3; 3.4; 3.5; 3.6]%py |}
            Python_class_ok eq_refl _);
    by vm_compute.
Defined.

Lemma filter_r_sublist {A} (f : A -> result bool) l kept :
  filter_r f l = Ok kept -> sublist kept l.
Proof.
  revert kept. induction l as [|x l IH]; intros kept; cbn [filter_r].
  - by intros [= <-].
  - destruct (f x) as [b|e]; cbn; [|done].
    destruct (filter_r f l) as [ys|e]; cbn; [|done].
    intros [= <-]. specialize (IH ys eq_refl).
    destruct b; by constructor.
Qed.

(** X6.  Whatever the limit, a number or an instance, and whatever the
    class, an instance returned by [limit_versions] has the class of the
    receiver and only versions of the receiver, each at most as often. *)
Theorem X6_limit_adds_no_version self (limit : limit) op r :
  limit_versions self limit op = Ok r ->
  lang_type r = lang_type self
  /\ exists kept, sublist kept (versions self)
                  /\ Permutation (versions r) kept.
Proof.
  unfold limit_versions, limit_versions_with.
  destruct (if limit_is_int limit then _ else _) as [kept|e] eqn:E; cbn;
    [|done].
  assert (sublist kept (versions self)) as Hsub.
  { destruct (limit_is_int limit); by eapply filter_r_sublist. }
  destruct kept as [|k kept]; [done|]. cbn [is_nil].
  unfold LanguageMeta__call__, Language__init__.
  destruct (forallb _ (k :: kept)); [|done].
  intros [= <-]. cbn [lang_type versions]. split; [done|].
  eexists. split; [exact Hsub|]. apply sorted_perm.
Qed.

Lemma X6_witness :
  limit_versions Python_33_34 (LLang Python_all) op_ge = Ok Python_33_34
  /\ lang_type Python_33_34 = lang_type Python_33_34
  /\ exists kept, sublist kept (versions Python_33_34)
                  /\ Permutation (versions Python_33_34) kept.
Proof.
  split; [by vm_compute|].
  apply (X6_limit_adds_no_version Python_33_34 (LLang Python_all) op_ge
           Python_33_34).
  by vm_compute.
Defined.

(** X7.  A relational operator between two instances [a <op> b] compares
    every version [v] of [a] with [b] by the reflected operator of [b],
    which is a restriction of [b] by the number [v]: the result is [a]
    itself, in class and versions, when [a] has a version and every version
    of [a] leaves a version of [b], and [ValueError('No versions left')]
    otherwise.  So [a != a] raises for an instance with a single version. *)
Theorem X7_operator_between_instances
    cls_a args_a a cls_b args_b b op :
  class_ok cls_a -> class_ok cls_b ->
  LanguageMeta__call__ cls_a args_a = Ok a ->
  LanguageMeta__call__ cls_b args_b = Ok b ->
  Language_op op a (LLang b) =
    if negb (is_nil (versions a))
       && forallb (fun v => existsb (holds (reflected op) v) (versions b))
                  (versions a)
    then Ok a
    else Raise ValueError_no_versions_left.
Proof.
  intros Ha Hb Hca Hcb.
  destruct (construct_ok _ _ _ Ha Hca) as [_ (Hfa & Hasc & Hin)].
  destruct (construct_ok _ _ _ Hb Hcb) as [_ Hokb].
  rewrite Language_op_eq. unfold limit_versions, limit_versions_with.
  cbn [limit_is_int].
  rewrite (filter_r_all _
             (fun v => existsb (holds (reflected op) v) (versions b))
             ValueError_no_versions_left).
  - destruct (forallb (fun v => existsb _ _) (versions a));
      [|by rewrite andb_false_r].
    rewrite andb_true_r. cbn.
    destruct (is_nil (versions a)) eqn:Hnil; [done|]. cbn [negb].
    rewrite construct_again; [by destruct a|done..|by apply is_nil_false].
  - intros v _. unfold apply_operator.
    rewrite limit_versions_number_spec by done. cbn zeta.
    rewrite is_nil_filter. destruct (existsb _ _); reflexivity.
Qed.

(** [Python(3.3) != Python(3.3)] raises, and
    [Python(3.3, 3.4) >= Python(3.3)] is [Python 3.3, 3.4]. *)
Lemma X7_witness :
  class_ok Python
  /\ LanguageMeta__call__ Python [3.3]%py = Ok Python_33
  /\ LanguageMeta__call__ Python [3.3; 3.4]%py = Ok Python_33_34
  /\ Language_op op_ne Python_33 (LLang Python_33)
     = Raise ValueError_no_versions_left
  /\ Language_op op_ge Python_33_34 (LLang Python_33) = Ok Python_33_34.
Proof.
  split; [exact Python_class_ok|]. split; [reflexivity|].
  split; [reflexivity|]. split.
  - exact (X7_operator_between_instances Python [3.3]%py Python_33
             Python [3.3]%py Python_33 op_ne
             Python_class_ok Python_class_ok eq_refl eq_refl).
  - exact (X7_operator_between_instances Python [3.3; 3.4]%py Python_33_34
             Python [3.3]%py Python_33 op_ge
             Python_class_ok Python_class_ok eq_refl eq_refl).
Defined.

(** ** Further properties: the parser *)

Lemma py_float_error s e : py_float s = Raise e -> e = ValueError_float s.
Proof.
  unfold py_float. destruct (read_sign _) as [neg body].
  repeat case_bool_decide; try done.
  destruct (read_floatnumber neg body); [done|]. by intros [= <-].
Qed.

Lemma map_r_first_error {A B} (f : A -> result B) l e :
  map_r f l = Raise e <->
  exists before x after,
    l = (before ++ x :: after)%list
    /\ Forall (fun y => exists b, f y = Ok b) before
    /\ f x = Raise e.
Proof.
  induction l as [|x l IH]; cbn [map_r].
  - split; [done|]. by intros ([|??] & ? & ? & ? & _).
  - destruct (f x) as [y|e'] eqn:E; cbn.
    + destruct (map_r f l) as [ys|e''] eqn:E'; cbn.
      * split; [done|].
        intros ([|x0 before] & x' & after & Hl & Hb & Hx);
          injection Hl as -> ->; [congruence|].
        inversion_clear Hb as [|?? _ Hb'].
        assert (Ok ys = Raise e :> result (list B)); [|done].
        apply IH. eauto 6.
      * split.
        -- intros [= ->]. destruct (proj1 IH eq_refl)
             as (before & x' & after & -> & Hb & Hx).
           exists (x :: before), x', after. split; [done|].
           split; [|done]. constructor; eauto.
        -- intros ([|x0 before] & x' & after & Hl & Hb & Hx);
             injection Hl as -> ->; [congruence|].
           inversion_clear Hb as [|?? _ Hb'].
           apply IH. eauto 6.
    + split.
      * intros [= ->]. exists [], x, l. split; [done|]. by split.
      * intros ([|x0 before] & x' & after & Hl & Hb & Hx);
          injection Hl as -> ->; [congruence|].
        inversion_clear Hb as [|?? [b Hb0] _]. congruence.
Qed.

(** X8.  [parse_lang_str] fails exactly when a piece after the first is
    not accepted by [float()]; the error is the conversion error of the
    first such piece, and it names that piece.  The last word of the first
    piece never makes the parser fail. *)
Theorem X8_parse_failure_is_first_bad_piece (text : item) e :
  parse_lang_str text = Raise e <->
  exists before tok after,
    (re_split (py_str text)).2 = (before ++ tok :: after)%list
    /\ Forall (fun t => exists f, py_float t = Ok f) before
    /\ py_float tok = Raise e
    /\ e = ValueError_float tok.
Proof.
  unfold parse_lang_str. destruct (re_split (py_str text)) as [name rest].
  cbn [snd].
  assert (map_r (fun s => f ← py_float s; Ok (PyFloat f)) rest
          = (fs ← map_r py_float rest; Ok (map PyFloat fs))) as ->.
  { induction rest as [|t rest IH]; [done|]. cbn [map_r].
    destruct (py_float t); cbn; [|done]. rewrite IH.
    by destruct (map_r py_float rest). }
  destruct (map_r py_float rest) as [fs|e'] eqn:E; cbn.
  - split.
    + destruct (rsplit1 name) as [|? [|? [|]]]; try done.
      by destruct (py_float _).
    + intros (before & tok & after & Hrest & Hb & Htok & _).
      assert (Ok fs = Raise e :> result (list pyfloat)); [|done].
      rewrite <- E. apply map_r_first_error. eauto 6.
  - split.
    + intros [= ->]. apply map_r_first_error in E
        as (before & tok & after & Hrest & Hb & Htok).
      exists before, tok, after. split_and!; try done.
      by apply py_float_error.
    + intros (before & tok & after & Hrest & Hb & Htok & _).
      f_equal. assert (Raise e' = Raise e :> result (list pyfloat)) as [=];
        [|done].
      rewrite <- E. apply map_r_first_error. eauto 6.
Qed.

(** In ["Java 8, nine, ten"] the first piece that is no number is [nine]. *)
Lemma X8_witness :
  parse_lang_str "Java 8, nine, ten" = Raise (ValueError_float "nine").
Proof.
  apply (proj2 (X8_parse_failure_is_first_bad_piece "Java 8, nine, ten"
                  (ValueError_float "nine"))).
  exists [], "nine", ["ten"]. split; [reflexivity|].
  split; [constructor|]. split; reflexivity.
Defined.

Lemma re_split_skip_space ws s :
  forallb is_space ws = true ->
  re_split_from true (string_of_list_ascii ws ++ s) = re_split_from true s.
Proof.
  induction ws as [|c ws IH]; [done|]. cbn [forallb].
  intros [Hc Hws]%andb_prop.
  change (string_of_list_ascii (c :: ws) ++ s)
    with (String c (string_of_list_ascii ws ++ s)).
  cbn [re_split_from andb]. rewrite Hc. by apply IH.
Qed.

Lemma re_split_space_after_comma skip p ws s :
  forallb is_space ws = true ->
  re_split_from skip (p ++ String "," (string_of_list_ascii ws ++ s))
  = re_split_from skip (p ++ String "," s).
Proof.
  intros Hws. revert skip. induction p as [|c p IH]; intros skip.
  - change (EmptyString ++ ?x) with x. cbn [re_split_from].
    change (is_space ",") with false. rewrite andb_false_r.
    change (is_comma ",") with true. cbn iota.
    by rewrite re_split_skip_space.
  - change (String c p ++ ?x) with (String c (p ++ x)).
    cbn [re_split_from]. by rewrite !IH.
Qed.

(** X9.  White space after a comma does not count: a text and the same
    text with white space added after one of its commas are parsed alike,
    to the same name and versions or with the same error. *)
Theorem X9_parse_ignores_space_after_comma p ws s :
  forallb is_space ws = true ->
  parse_lang_str (Text (p ++ String "," (string_of_list_ascii ws ++ s)))
  = parse_lang_str (Text (p ++ String "," s)).
Proof.
  intros Hws. unfold parse_lang_str, re_split. cbn [py_str].
  by rewrite re_split_space_after_comma.
Qed.

Lemma X9_witness :
  forallb is_space [" "; " "]%char = true
  /\ parse_lang_str "Python 3.6,  3.3" = parse_lang_str "Python 3.6,3.3".
Proof.
  split; [reflexivity|].
  exact (X9_parse_ignores_space_after_comma "Python 3.6" [" "; " "]%char "3.3"
           eq_refl).
Defined.

(** X10.  Every version that the parser returns is a [float], never an
    [int], and there is one version for each piece after the first, and at
    most one more, for the last word of the first piece. *)
Theorem X10_parsed_versions_are_floats (text : item) name vs :
  parse_lang_str text = Ok (name, vs) ->
  Forall (fun v => is_int v = false) vs
  /\ (length vs = length (re_split (py_str text)).2
      \/ length vs = S (length (re_split (py_str text)).2)).
Proof.
  unfold parse_lang_str. destruct (re_split (py_str text)) as [first rest].
  cbn [snd].
  assert (forall fs,
    map_r (fun s => f ← py_float s; Ok (PyFloat f)) rest = Ok fs ->
    Forall (fun v => is_int v = false) fs /\ length fs = length rest) as Hrest.
  { induction rest as [|t rest IH]; intros fs; cbn [map_r].
    - intros [= <-]. by split.
    - destruct (py_float t) as [f|e]; cbn; [|done].
      destruct (map_r _ rest) as [ys|e]; cbn; [|done].
      intros [= <-]. destruct (IH ys eq_refl) as [? ?].
      split; [by constructor|]. cbn. by f_equal. }
  destruct (map_r _ rest) as [fs|e]; cbn; [|done].
  destruct (Hrest fs eq_refl) as [Hf Hlen].
  destruct (rsplit1 first) as [|a [|b [|]]]; try (intros [= <- <-]; by auto).
  destruct (py_float b); intros [= <- <-]; [|by auto].
  split; [by constructor|]. right. cbn. by f_equal.
Qed.

(** ["C++ 11, 14"] gives the floats [11.0] and [14.0]. *)
Lemma X10_witness :
  parse_lang_str "C++ 11, 14"
    = Ok ("C++", [PyFloat (Finite false 11 0); PyFloat (Finite false 14 0)])
  /\ Forall (fun v => is_int v = false)
       [PyFloat (Finite false 11 0); PyFloat (Finite false 14 0)].
Proof.
  split; [reflexivity|].
  exact (proj1 (X10_parsed_versions_are_floats "C++ 11, 14" "C++" _ eq_refl)).
Defined.

(** ** Further properties: lookup and registration *)

(** The only exception of the parser is the conversion error of a piece. *)
Lemma parse_lang_str_error (text : item) e :
  parse_lang_str text = Raise e -> exists tok, e = ValueError_float tok.
Proof.
  unfold parse_lang_str. destruct (re_split (py_str text)) as [name rest].
  destruct (map_r _ rest) as [fs|e'] eqn:E; cbn.
  - destruct (rsplit1 name) as [|? [|? [|]]]; try done.
    by destruct (py_float _).
  - intros [= ->]. apply map_r_first_error in E
      as (before & tok & after & _ & _ & Htok).
    exists tok. destruct (py_float tok) as [f|e'] eqn:Ef; [done|].
    cbn in Htok. injection Htok as <-. by apply py_float_error.
Qed.

(** Membership raises exactly when the parser does, with its error. *)
Lemma contains_raises cls (item : item) e :
  LanguageMeta__contains__ cls item = Raise e <-> parse_lang_str item = Raise e.
Proof.
  unfold LanguageMeta__contains__.
  destruct (parse_lang_str item) as [[name vs]|e']; cbn; [done|].
  split; by intros [= ->].
Qed.

Lemma first_containing_found (all : registry) (item : item) cls :
  first_containing all item = Ok cls <->
  exists before after,
    all = (before ++ cls :: after)%list
    /\ Forall (fun c => LanguageMeta__contains__ c item = Ok false) before
    /\ LanguageMeta__contains__ cls item = Ok true.
Proof.
  induction all as [|c all IH]; cbn [first_containing].
  - split; [done|]. by intros ([|??] & ? & ? & _).
  - destruct (LanguageMeta__contains__ c item) as [[|]|e] eqn:E; cbn.
    + split.
      * intros [= <-]. exists [], all. by split_and!.
      * intros ([|c0 before] & after & Hl & Hb & Hc);
          injection Hl as -> ->; [done|].
        inversion_clear Hb. congruence.
    + rewrite IH. split.
      * intros (before & after & -> & Hb & Hc).
        exists (c :: before), after. split_and!; [done| |done].
        by constructor.
      * intros ([|c0 before] & after & Hl & Hb & Hc);
          injection Hl as -> ->; [congruence|].
        inversion_clear Hb. eauto.
    + split; [done|].
      intros ([|c0 before] & after & Hl & Hb & Hc);
        injection Hl as -> ->; [congruence|].
      inversion_clear Hb. congruence.
Qed.

Lemma first_containing_none (all : registry) (item : item) :
  first_containing all item = Raise (AttributeError EmptyString) <->
  Forall (fun c => LanguageMeta__contains__ c item = Ok false) all.
Proof.
  induction all as [|c all IH]; cbn [first_containing].
  - split; [constructor|done].
  - destruct (LanguageMeta__contains__ c item) as [[|]|e] eqn:E; cbn.
    + split; [done|]. intros H. inversion_clear H. congruence.
    + rewrite IH. split; [by constructor|]. intros H. by inversion_clear H.
    + split.
      * intros [= ->]. apply contains_raises, parse_lang_str_error in E.
        by destruct E.
      * intros H. inversion_clear H. congruence.
Qed.

Lemma first_containing_error (all : registry) (item : item) e :
  first_containing all item = Raise e ->
  e = AttributeError EmptyString
  \/ (all <> [] /\ parse_lang_str item = Raise e).
Proof.
  induction all as [|c all IH]; cbn [first_containing].
  - intros [= <-]. by left.
  - destruct (LanguageMeta__contains__ c item) as [[|]|e'] eqn:E; cbn.
    + done.
    + intros [->|[_ H]]%IH; [by left|by right].
    + intros [= ->]. right. split; [done|]. by apply (contains_raises c).
Qed.

(** X11.  [Language.<item>] returns the first class, in the order of
    registration, that contains the item; it raises [AttributeError]
    exactly when every registered class answers the membership test with
    [False], so always on an empty registry; its only other exception is
    the error of the parser, on a registry that is not empty. *)
Theorem X11_lookup_returns_first_match (all : registry) (item : string) :
  (forall cls,
     LanguageMeta__getattr__ all item = Ok cls <->
     exists before after,
       all = (before ++ cls :: after)%list
       /\ Forall (fun c => LanguageMeta__contains__ c item = Ok false) before
       /\ LanguageMeta__contains__ cls item = Ok true)
  /\ (LanguageMeta__getattr__ all item = Raise (AttributeError EmptyString) <->
      Forall (fun c => LanguageMeta__contains__ c item = Ok false) all)
  /\ (forall e,
        LanguageMeta__getattr__ all item = Raise e ->
        e = AttributeError EmptyString
        \/ (all <> [] /\ parse_lang_str item = Raise e)).
Proof.
  unfold LanguageMeta__getattr__. split_and!.
  - intros cls. apply first_containing_found.
  - apply first_containing_none.
  - intros e. apply first_containing_error.
Qed.

Lemma first_containing_app (l1 l2 : registry) (item : item) :
  first_containing (l1 ++ l2) item =
    match first_containing l1 item with
    | Ok cls => Ok cls
    | Raise e =>
        if forallb (fun c => match LanguageMeta__contains__ c item with
                             | Ok false => true
                             | _ => false
                             end) l1
        then first_containing l2 item
        else Raise e
    end.
Proof.
  induction l1 as [|c l1 IH]; cbn [app first_containing forallb].
  - by destruct (first_containing l2 item).
  - destruct (LanguageMeta__contains__ c item) as [[|]|e]; cbn; [done| |done].
    by rewrite IH.
Qed.

Lemma getattr_single_word (all : registry) ident :
  single_word ident = true ->
  LanguageMeta__getattr__ all ident =
    match List.find (answers_to ident) all with
    | Some cls => Ok cls
    | None => Raise (AttributeError EmptyString)
    end.
Proof.
  intros Hw. unfold LanguageMeta__getattr__.
  induction all as [|c all IH]; [done|]. cbn [first_containing List.find].
  rewrite contains_single_word by done. cbn.
  by destruct (answers_to ident c).
Qed.

Lemma answers_to_own_name all arg Sub all' :
  LanguageMeta__call__Language all [arg] = Ok (Sub, all') ->
  answers_to (decl_name arg) Sub = true
  /\ answers_to (decl_qualname arg) Sub = true.
Proof.
  intros [= <- <-]. unfold answers_to, names_of. cbn [cls_aliases cls_qualname cls_name].
  rewrite !map_app, !existsb_app. cbn [map existsb].
  rewrite !String.eqb_refl. by rewrite !orb_true_r.
Qed.

(** X12.  The decorator only appends to the registry.  A lookup that
    found a class before the registration finds the same class after it;
    a lookup that raised [AttributeError] now finds the new class if that
    contains the item, and raises [AttributeError] still if not.  When the
    declared name is a single word, lookup of it succeeds afterwards, with
    a class that answers to the name: the new class, or one registered
    earlier. *)
Theorem X12_registration_keeps_lookups (all : registry) arg Sub all' :
  LanguageMeta__call__Language all [arg] = Ok (Sub, all') ->
  all' = (all ++ [Sub])%list
  /\ (forall (item : string) cls,
        LanguageMeta__getattr__ all item = Ok cls ->
        LanguageMeta__getattr__ all' item = Ok cls)
  /\ (forall item : string,
        LanguageMeta__getattr__ all item = Raise (AttributeError EmptyString) ->
        LanguageMeta__getattr__ all' item =
          (b ← LanguageMeta__contains__ Sub item;
           if (b : bool) then Ok Sub else Raise (AttributeError EmptyString)))
  /\ (single_word (decl_name arg) = true ->
      exists cls,
        LanguageMeta__getattr__ all' (decl_name arg) = Ok cls
        /\ answers_to (decl_name arg) cls = true
        /\ (cls = Sub \/ In cls all)).
Proof.
  intros Hreg. pose proof (answers_to_own_name _ _ _ _ Hreg) as [Hname _].
  unfold LanguageMeta__call__Language in Hreg. injection Hreg as HSub <-.
  rewrite HSub. split; [done|].
  unfold LanguageMeta__getattr__. split_and!.
  - intros item cls Hfind. by rewrite first_containing_app, Hfind.
  - intros item Hnone. rewrite first_containing_app, Hnone.
    apply first_containing_none in Hnone.
    assert (forallb (fun c => match LanguageMeta__contains__ c item with
                              | Ok false => true
                              | _ => false
                              end) all = true) as ->.
    { apply forallb_forall. intros c Hc.
      rewrite List.Forall_forall in Hnone. by rewrite (Hnone c Hc). }
    cbn [first_containing].
    destruct (LanguageMeta__contains__ Sub item) as [[|]|e]; done.
  - intros Hw. pose proof (getattr_single_word (all ++ [Sub]) _ Hw) as Hget.
    unfold LanguageMeta__getattr__ in Hget. rewrite Hget.
    destruct (List.find _ (all ++ [Sub])%list) as [cls|] eqn:Efind.
    + apply find_some in Efind as [Hin Hans]. exists cls.
      split_and!; [done..|].
      apply in_app_or in Hin as [?|[<-|[]]]; auto.
    + exfalso. rewrite (find_none _ _ Efind Sub) in Hname; [done|].
      apply in_or_app. right. by left.
Qed.

(** Registering [Python] and then [C++]: [python] is found before and
    after the second registration, [cxx] only after it. *)
Lemma X12_witness :
  LanguageMeta__call__Language [Python] [CPP_decl] = Ok (CPP, [Python; CPP])
  /\ LanguageMeta__getattr__ [Python] "python" = Ok Python
  /\ LanguageMeta__getattr__ [Python; CPP] "python" = Ok Python
  /\ LanguageMeta__getattr__ [Python] "cxx" = Raise (AttributeError EmptyString)
  /\ LanguageMeta__getattr__ [Python; CPP] "cxx" = Ok CPP.
Proof.
  pose proof (X12_registration_keeps_lookups [Python] CPP_decl CPP
                [Python; CPP] eq_refl) as (_ & Hkeep & Hnew & _).
  split; [reflexivity|]. split; [reflexivity|].
  split; [exact (Hkeep "python" Python eq_refl)|].
  split; [reflexivity|].
  exact (Hnew "cxx" eq_refl).
Defined.




(** ** Further properties: membership of an instance *)

Lemma rsplit1_trailing_blank s : rsplit1 (s ++ " ") = rsplit1 s.
Proof.
  unfold rsplit1. rewrite list_ascii_app, rev_app_distr. reflexivity.
Qed.

Lemma single_word_trailing_blank s : single_word (s ++ " ") = false.
Proof.
  unfold single_word. rewrite list_ascii_app, forallb_app.
  apply andb_false_r.
Qed.

(** The text of an instance without versions is its qualified name and a
    blank, and the parser leaves it as it is. *)
Lemma parse_no_version_instance cls :
  single_word (cls_qualname cls) = true ->
  parse_lang_str (Instance {| lang_type := cls; versions := [] |})
  = Ok (cls_qualname cls ++ " ", []).
Proof.
  intros Hword. unfold parse_lang_str, re_split.
  cbn [py_str]. unfold Language__str__. cbn [lang_type versions map].
  change (join ", " []) with EmptyString.
  rewrite <- (append_nil_r (cls_qualname cls ++ " " ++ EmptyString)).
  rewrite re_split_piece; [|by rewrite !no_comma_app,
                                (single_word_no_comma _ Hword)|by left].
  cbn [re_split_from]. rewrite !append_nil_r. cbn.
  change (cls_qualname cls ++ " " ++ EmptyString)
    with (cls_qualname cls ++ " ").
  rewrite rsplit1_trailing_blank.
  by destruct (rsplit1_single_word _ Hword) as [-> | ->].
Qed.

(** X14.  Membership of an instance goes through its text.  An instance
    with at least one version, whose versions have texts that read back
    and whose class has a single non-empty word as qualified name, is in
    its own class.  An instance without versions, of a class whose
    qualified name is a single word, is in no class whose aliases and names
    are single words, not even in its own: its text ends with a blank. *)
Theorem X14_instance_membership :
  (forall cls args self,
     class_ok cls ->
     LanguageMeta__call__ cls args = Ok self ->
     versions self <> [] ->
     forallb reads_back (versions self) = true ->
     single_word (cls_qualname cls) = true ->
     cls_qualname cls <> EmptyString ->
     LanguageMeta__contains__ cls (Instance self) = Ok true)
  /\ (forall cls other,
        single_word (cls_qualname cls) = true ->
        forallb single_word
          (cls_aliases other ++ [cls_qualname other; cls_name other]) = true ->
        LanguageMeta__contains__ other
          (Instance {| lang_type := cls; versions := [] |}) = Ok false).
Proof.
  split.
  - intros cls args self Hcls Hself Hne Hback Hword Hname.
    destruct (construct_ok _ _ _ Hcls Hself) as [Htype (Hfin & _ & Hin)].
    destruct self as [cls' vs]. cbn [lang_type versions] in *. subst cls'.
    destruct Hcls as [Hcfin _].
    rewrite contains_instance by done.
    unfold all_in. by rewrite answers_to_qualname, Hin.
  - intros cls other Hword Hnames. unfold LanguageMeta__contains__.
    rewrite parse_no_version_instance by done. cbn.
    rewrite ?orb_true_r, ?andb_true_r. f_equal.
    destruct (existsb _ (names_of other)) eqn:E; [|done].
    apply existsb_eqb_iff in E. unfold names_of in E.
    apply in_map_iff in E as (n & Hn & Hin).
    rewrite forallb_forall in Hnames. apply Hnames in Hin.
    apply lower_single_word in Hn.
    by rewrite Hin, single_word_trailing_blank in Hn.
Qed.

(** [Python(3.3, 3.4)] is in [Python]; [Plain()] is not in [Plain]. *)
Lemma X14_witness :
  class_ok Python
  /\ LanguageMeta__call__ Python [3.3; 3.4]%py = Ok Python_33_34
  /\ forallb reads_back (versions Python_33_34) = true
  /\ single_word (cls_qualname Python) = true
  /\ LanguageMeta__contains__ Python (Instance Python_33_34) = Ok true
  /\ LanguageMeta__contains__ Plain
       (Instance {| lang_type := Plain; versions := [] |}) = Ok false.
Proof.
  assert (versions Python_33_34 <> []) as Hne by discriminate.
  assert (cls_qualname Python <> EmptyString) as Hname by discriminate.
  assert (forallb reads_back (versions Python_33_34) = true) as Hback
    by (by vm_compute).
  assert (LanguageMeta__call__ Python [3.3; 3.4]%py = Ok Python_33_34)
    as Hcall by (by vm_compute).
  split; [exact Python_class_ok|]. split; [exact Hcall|].
  split; [exact Hback|]. split; [reflexivity|]. split.
  - exact (proj1 X14_instance_membership Python [3.3; 3.4]%py Python_33_34
             Python_class_ok Hcall Hne Hback eq_refl Hname).
  - exact (proj2 X14_instance_membership Plain Plain eq_refl eq_refl).
Defined.

(** ** Further properties: aspect instances *)

Lemma map_r_ext_in {A B} (f g : A -> result B) l :
  (forall x, In x l -> f x = g x) -> map_r f l = map_r g l.
Proof.
  induction l as [|x l IH]; [done|]. intros H. cbn [map_r].
  rewrite (H x) by (by left). by rewrite IH by (intros; apply H; by right).
Qed.

Lemma taste_value_cons taste_values n t tastes :
  map_r (taste_value taste_values) ((n, t) :: tastes) =
    (v ← cast_type t (default (taste_default t) (taste_values !! n));
     ys ← map_r (taste_value taste_values) tastes;
     Ok ((n, v) :: ys)).
Proof.
  cbn [map_r]. unfold taste_value. cbn [fst snd].
  by destruct (cast_type t _).
Qed.

Lemma taste_value_names taste_values tastes vals :
  map_r (taste_value taste_values) tastes = Ok vals ->
  map fst vals = map fst tastes.
Proof.
  revert vals. induction tastes as [|[n t] tastes IH]; intros vals.
  - by intros [= <-].
  - rewrite taste_value_cons.
    destruct (cast_type t _) as [v|e]; cbn; [|done].
    destruct (map_r _ tastes) as [ys|e]; cbn; [|done].
    intros [= <-]. cbn. by rewrite (IH ys).
Qed.

Lemma dict_update_notin d vals n :
  ~ In n (map fst vals) -> dict_update d vals !! n = d !! n.
Proof.
  unfold dict_update. revert d.
  induction vals as [|[m w] vals IH]; intros d Hn; [done|].
  cbn [foldl fst snd]. rewrite IH by (intros ?; apply Hn; by right).
  apply lookup_insert_ne. intros ->. apply Hn. by left.
Qed.

(** Reading the names back from a [__dict__] that was filled with them. *)
Lemma dict_update_read d tastes vals :
  List.NoDup (map fst tastes) ->
  map fst vals = map fst tastes ->
  map_r (fun nt : string * taste =>
           match dict_update d vals !! nt.1 with
           | Some v => Ok (nt.1, v)
           | None => Raise (KeyError nt.1)
           end) tastes = Ok vals.
Proof.
  revert d vals. induction tastes as [|[n t] tastes IH];
    intros d [|[m w] vals] Hnd Hnames; try done.
  cbn in Hnames. injection Hnames as -> Hnames.
  apply List.NoDup_cons_iff in Hnd as [Hn Hnd].
  cbn [map_r fst]. change (dict_update d ((n, w) :: vals))
    with (dict_update (<[n := w]> d) vals).
  rewrite dict_update_notin by (by rewrite Hnames).
  rewrite lookup_insert_eq. cbn.
  by rewrite (IH (<[n := w]> d) vals Hnd Hnames).
Qed.

(** The loop of [aspectbase.__init__] on an object of the heap. *)
Lemma store_tastes_spec self tastes taste_values (h : heap) o :
  h !! self = Some o ->
  List.NoDup (map fst tastes) ->
  match map_r (taste_value taste_values) tastes with
  | Ok vals =>
      Store.aspectbase_store_tastes self tastes taste_values h
      = (Ok (), <[self := {| ob_type := ob_type o;
                             ob_dict := dict_update (ob_dict o) vals |}]> h)
  | Raise e =>
      exists d,
        Store.aspectbase_store_tastes self tastes taste_values h
        = (Raise e, <[self := {| ob_type := ob_type o; ob_dict := d |}]> h)
  end.
Proof.
  revert taste_values h o. induction tastes as [|[n t] tastes IH];
    intros taste_values h o Hself Hnd.
  - cbn. rewrite list_insert_id; [done|]. by destruct o.
  - apply List.NoDup_cons_iff in Hnd as [Hn Hnd].
    rewrite taste_value_cons. cbn [Store.aspectbase_store_tastes].
    destruct (cast_type t _) as [v|e] eqn:Ecast; cbn.
    + erewrite bind_ok by reflexivity.
      erewrite bind_ok by (by apply dict_setitem_spec).
      set (o1 := {| ob_type := ob_type o;
                    ob_dict := <[n := v]> (ob_dict o) |}).
      assert (<[self := o1]> h !! self = Some o1) as Hself1.
      { apply list_lookup_insert_eq. by eapply lookup_lt_Some. }
      specialize (IH (delete n taste_values) _ o1 Hself1 Hnd).
      rewrite (map_r_ext_in (taste_value (delete n taste_values))
                 (taste_value taste_values)) in IH.
      2: { intros [m t'] Hin. unfold taste_value. cbn [fst snd].
           rewrite lookup_delete_ne; [done|]. intros ->. apply Hn.
           apply in_map_iff. by exists (m, t'). }
      destruct (map_r (taste_value taste_values) tastes) as [ys|e]; cbn.
      * rewrite IH. by rewrite list_insert_insert_eq.
      * destruct IH as [d IH]. exists d. rewrite IH.
        by rewrite list_insert_insert_eq.
    + exists (ob_dict o). erewrite bind_raise by reflexivity.
      rewrite list_insert_id; [done|]. by destruct o.
Qed.

(** [__init__] on an object that was just allocated is its loop. *)
Lemma init_new_aspect id tastes taste_values (h : heap) :
  Store.aspectbase__init__ (length h) taste_values
    (h ++ [{| ob_type := aspectclass id tastes; ob_dict := ∅ |}])%list
  = Store.aspectbase_store_tastes (length h) tastes taste_values
      (h ++ [{| ob_type := aspectclass id tastes; ob_dict := ∅ |}])%list.
Proof.
  unfold Store.aspectbase__init__.
  by erewrite bind_ok by (apply load_spec, lookup_new).
Qed.

(** X15.  [aspectbase.__init__] and the property [tastes], for a class
    whose taste names are distinct, as the keys of a dict are.  When every
    cast succeeds, construction appends one object of the class to the
    heap and [tastes] of it gives, for each taste in order, the value
    given for it, or the default of the taste when none is given, cast to
    the type of the taste.  When a cast raises, construction raises the
    error of the first such taste, and the object stays in the heap. *)
Theorem X15_tastes_after_construction id tastes taste_values (h : heap) :
  List.NoDup (map fst tastes) ->
  match map_r (taste_value taste_values) tastes with
  | Ok vals =>
      exists o,
        Store.aspectclass__call__ id tastes taste_values h
        = (Ok (length h), (h ++ [o])%list)
        /\ ob_type o = aspectclass id tastes
        /\ Store.aspectbase_tastes (length h) (h ++ [o])%list
           = (Ok vals, (h ++ [o])%list)
  | Raise e =>
      exists o,
        Store.aspectclass__call__ id tastes taste_values h
        = (Raise e, (h ++ [o])%list)
        /\ ob_type o = aspectclass id tastes
  end.
Proof.
  intros Hnd. unfold Store.aspectclass__call__.
  erewrite bind_ok by reflexivity.
  set (o0 := {| ob_type := aspectclass id tastes; ob_dict := ∅ |}).
  pose proof (store_tastes_spec (length h) tastes taste_values
                (h ++ [o0])%list o0 (lookup_new h o0) Hnd) as Hstore.
  subst o0. cbn [ob_type ob_dict] in Hstore.
  destruct (map_r (taste_value taste_values) tastes) as [vals|e] eqn:Evals.
  - rewrite <- (init_new_aspect id tastes taste_values h) in Hstore.
    rewrite insert_new in Hstore. eexists. split_and!.
    + erewrite bind_ok by exact Hstore. reflexivity.
    + reflexivity.
    + unfold Store.aspectbase_tastes.
      erewrite bind_ok by (apply load_spec, lookup_new).
      cbn [ob_type ob_dict]. unfold lift.
      rewrite dict_update_read;
        [done|done|by apply (taste_value_names taste_values)].
  - destruct Hstore as [d Hstore].
    rewrite <- (init_new_aspect id tastes taste_values h) in Hstore.
    rewrite insert_new in Hstore. eexists.
    split; [by erewrite bind_raise by exact Hstore|reflexivity].
Qed.

(** The aspect with the taste [style]: built without values it has the
    default, built with a number for [style] it raises the error of the
    cast. *)
Lemma X15_witness :
  List.NoDup (map fst [("style", style_taste)])
  /\ (exists o,
        Store.aspectclass__call__ 0 [("style", style_taste)] ∅ []
        = (Ok 0%nat, [o])
        /\ ob_type o = aspectclass 0 [("style", style_taste)]
        /\ Store.aspectbase_tastes 0 [o]
           = (Ok [("style", VText "plain")], [o]))
  /\ (exists o,
        Store.aspectclass__call__ 0 [("style", style_taste)]
          {[ "style" := VNumber 3%py ]} []
        = (Raise (TypeError "style is a text"), [o])
        /\ ob_type o = aspectclass 0 [("style", style_taste)]).
Proof.
  assert (List.NoDup (map fst [("style", style_taste)])) as Hnd.
  { constructor; [intros []|constructor]. }
  split; [exact Hnd|]. split.
  - exact (X15_tastes_after_construction 0 [("style", style_taste)] ∅ [] Hnd).
  - exact (X15_tastes_after_construction 0 [("style", style_taste)]
             {[ "style" := VNumber 3%py ]} [] Hnd).
Defined.

Lemma store_tastes_ext self tastes tv tv' (h : heap) :
  (forall n, In n (map fst tastes) -> tv' !! n = tv !! n) ->
  Store.aspectbase_store_tastes self tastes tv' h
  = Store.aspectbase_store_tastes self tastes tv h.
Proof.
  revert tv tv' h. induction tastes as [|[n t] tastes IH];
    intros tv tv' h Hagree; [done|].
  cbn [Store.aspectbase_store_tastes].
  rewrite (Hagree n) by (by left).
  unfold mbind, M_bind, lift.
  destruct (cast_type t _) as [v|e]; [|done]. cbv beta iota.
  destruct (Store.dict_setitem self n v h) as [[[]|e] h1]; [|done].
  apply IH. intros m Hm.
  destruct (decide (m = n)) as [->|Hne].
  - by rewrite !lookup_delete_eq.
  - rewrite !lookup_delete_ne by done. apply Hagree. by right.
Qed.

(** X16.  Construction of an aspect instance reads the given values under
    the names of the tastes only: values given under other names are
    ignored, without an error, and two sets of values that agree on the
    taste names give the same result and the same heap. *)
Theorem X16_other_taste_values_are_ignored id tastes tv tv' (h : heap) :
  (forall n, In n (map fst tastes) -> tv' !! n = tv !! n) ->
  Store.aspectclass__call__ id tastes tv' h
  = Store.aspectclass__call__ id tastes tv h.
Proof.
  intros Hagree. unfold Store.aspectclass__call__.
  erewrite !(bind_ok (Store.alloc _)) by reflexivity.
  unfold mbind, M_bind. rewrite !init_new_aspect.
  by rewrite (store_tastes_ext _ _ tv tv').
Qed.

(** A value given for [colour], which is no taste of the class, changes
    nothing. *)
Lemma X16_witness :
  Store.aspectclass__call__ 0 [("style", style_taste)]
    {[ "colour" := VText "red" ]} []
  = Store.aspectclass__call__ 0 [("style", style_taste)] ∅ [].
Proof.
  apply (X16_other_taste_values_are_ignored 0 [("style", style_taste)]
           ∅ {[ "colour" := VText "red" ]} []).
  intros n [<-|[]]. reflexivity.
Defined.

(** ** Further properties: what the operators do to the heap *)

Lemma bind_inv {A B} (m : M A) (f : A -> M B) (h : heap) res h' :
  (m ≫= f) h = (res, h') ->
  (exists a h1, m h = (Ok a, h1) /\ f a h1 = (res, h'))
  \/ (exists e, m h = (Raise e, h') /\ res = Raise e).
Proof.
  unfold mbind, M_bind. destruct (m h) as [[a|e] h1].
  - intros E. left. eauto.
  - intros [= <- <-]. right. eauto.
Qed.

Lemma grows_bind {A B} (m : M A) (f : A -> M B) :
  grows m -> (forall a, grows (f a)) -> grows (m ≫= f).
Proof.
  intros Hm Hf h res h' [(a & h1 & E1 & E2)|(e & E1 & _)]%bind_inv.
  - destruct (Hm _ _ _ E1) as [new1 ->], (Hf a _ _ _ E2) as [new2 ->].
    exists (new1 ++ new2)%list. by rewrite app_assoc.
  - by apply (Hm _ _ _ E1).
Qed.

Lemma grows_pure {A} (m : M A) :
  (forall h, (m h).2 = h) -> grows m.
Proof.
  intros Hm h res h' E. exists []. rewrite app_nil_r.
  by rewrite <- (Hm h), E.
Qed.

Lemma grows_load r : grows (Store.load r).
Proof. apply grows_pure. intros h. unfold Store.load. by destruct (h !! r). Qed.

Lemma grows_type_of r : grows (Store.type_of r).
Proof.
  apply grows_bind; [apply grows_load|].
  intros o. apply grows_pure. intros h. by destruct (ob_type o).
Qed.

Lemma grows_get_versions r : grows (Store.get_versions r).
Proof.
  apply grows_bind; [apply grows_load|].
  intros o. apply grows_pure. intros h.
  destruct (ob_dict o !! "versions") as [[]|]; try done.
  by destruct (ob_type o).
Qed.

Lemma grows_call cls args : grows (Store.LanguageMeta__call__ cls args).
Proof.
  intros h res h'. rewrite Store_call_spec.
  destruct (LanguageMeta__call__ cls args); intros [= _ <-]; eauto.
Qed.

Lemma grows_filter_m {A} (f : A -> M bool) l :
  (forall x, grows (f x)) -> grows (filter_m f l).
Proof.
  intros Hf. induction l as [|x l IH]; cbn [filter_m].
  - by apply grows_pure.
  - apply grows_bind; [done|]. intros b.
    apply grows_bind; [done|]. intros ys. by apply grows_pure.
Qed.

Lemma grows_limit_versions_with {L} isint
    (apply : relop -> number -> L -> M bool) self (limit : L) op :
  (forall o v, grows (apply o v limit)) ->
  grows (Store.limit_versions_with isint apply self limit op).
Proof.
  intros Happly. unfold Store.limit_versions_with.
  apply grows_bind; [apply grows_get_versions|]. intros all.
  apply grows_bind.
  - destruct (isint limit); apply grows_filter_m; intros v; [|done].
    apply grows_bind; [by apply grows_pure|done].
  - intros kept. destruct (is_nil kept); [by apply grows_pure|].
    apply grows_bind; [apply grows_type_of|]. intros cls. apply grows_call.
Qed.

Lemma grows_apply_operator op v (limit : Store.limit) :
  grows (Store.apply_operator op v limit).
Proof.
  destruct limit as [n|other]; cbn [Store.apply_operator].
  - by apply grows_pure.
  - apply grows_bind; [|intros _; by apply grows_pure].
    apply grows_limit_versions_with. intros o w. by apply grows_pure.
Qed.

(** An operator that returns has just constructed its result: the last
    object of the heap, at an address that was free before. *)
Lemma limit_versions_with_last {L} isint
    (apply : relop -> number -> L -> M bool) self (limit : L) op
    (h : heap) r h' :
  (forall o v, grows (apply o v limit)) ->
  Store.limit_versions_with isint apply self limit op h = (Ok r, h') ->
  (length h <= r)%nat
  /\ S r = length h'
  /\ exists cls vs, h' !! r = Some (object_of {| lang_type := cls;
                                                 versions := vs |}).
Proof.
  intros Happly. unfold Store.limit_versions_with.
  intros [(all & h1 & E1 & E)|(e & _ & ?)]%bind_inv; [|done].
  apply grows_get_versions in E1 as [new1 ->].
  apply bind_inv in E as [(kept & h2 & E2 & E)|(e & _ & ?)]; [|done].
  assert (exists new2, h2 = ((h ++ new1) ++ new2)%list) as [new2 ->].
  { revert E2. destruct (isint limit); apply grows_filter_m; intros v; [|done].
    apply grows_bind; [by apply grows_pure|done]. }
  destruct (is_nil kept); [done|].
  apply bind_inv in E as [(cls & h3 & E3 & E)|(e & _ & ?)]; [|done].
  apply grows_type_of in E3 as [new3 ->].
  rewrite Store_call_spec in E.
  destruct (LanguageMeta__call__ cls kept) as [[cls' vs]|e]; [|done].
  injection E as <- <-. rewrite !length_app. cbn [length].
  split_and!; [lia|lia|].
  exists cls', vs. rewrite <- !length_app. apply lookup_new.
Qed.

(** X17.  A relational operator of an instance, with a number or another
    instance as limit and on any heap, changes no object: the heap it
    leaves is the heap it was given with new objects appended, whether it
    returns or raises.  When it returns, the result is the last object of
    the heap, a new instance of a language class; it is never the
    receiver nor the limit. *)
Theorem X17_operators_only_append
    op self (limit : Store.limit) (h : heap) res h' :
  Store.Language_op op self limit h = (res, h') ->
  exists new,
    h' = (h ++ new)%list
    /\ forall r, res = Ok r ->
         h !! r = None
         /\ S r = length h'
         /\ exists cls vs, h' !! r = Some (object_of {| lang_type := cls;
                                                        versions := vs |}).
Proof.
  unfold Store.Language_op, Store.limit_versions. intros E.
  destruct (grows_limit_versions_with _ _ _ _ _
              (fun o v => grows_apply_operator o v limit) _ _ _ E)
    as [new ->].
  exists new. split; [done|]. intros r ->.
  apply limit_versions_with_last in E as (Hfree & Hlen & Hlast);
    [|intros o v; apply grows_apply_operator].
  split_and!; [|done..]. by apply lookup_ge_None_2.
Qed.

(** [Python(3.3, 3.4) >= Python(3.3)] in a heap that holds the two: each
    comparison of a version with the limit constructs an instance, so two
    objects are appended before the result, and the two operands stay. *)
Lemma X17_witness :
  Store.Language_op op_ge 0 (Store.LRef 1)
    [object_of Python_33_34; object_of Python_33]
  = (Ok 4%nat,
     [object_of Python_33_34; object_of Python_33;
      object_of Python_33; object_of Python_33; object_of Python_33_34])
  /\ exists new,
       [object_of Python_33_34; object_of Python_33;
        object_of Python_33; object_of Python_33; object_of Python_33_34]
       = ([object_of Python_33_34; object_of Python_33] ++ new)%list
       /\ forall r, Ok 4%nat = Ok r ->
            [object_of Python_33_34; object_of Python_33] !! r = None
            /\ S r = 5%nat
            /\ exists cls vs,
                 [object_of Python_33_34; object_of Python_33;
                  object_of Python_33; object_of Python_33;
                  object_of Python_33_34] !! r
                 = Some (object_of {| lang_type := cls; versions := vs |}).
Proof.
  split; [by vm_compute|].
  apply (X17_operators_only_append op_ge 0%nat (Store.LRef 1)
           [object_of Python_33_34; object_of Python_33]).
  by vm_compute.
Defined.

(** ** Further properties: declared classes *)

(** X18.  The decorator applied to a declaration with finite version
    numbers makes a class whose versions are the declared ones in
    ascending order, duplicates kept; and every declared version, given
    alone to the new class, constructs an instance with that one
    version. *)
Theorem X18_declared_versions_construct (all : registry) arg Sub all' :
  forallb is_finite (default [] (decl_versions arg)) = true ->
  LanguageMeta__call__Language all [arg] = Ok (Sub, all') ->
  Permutation (cls_versions Sub) (default [] (decl_versions arg))
  /\ ascending (cls_versions Sub)
  /\ forall v, In v (default [] (decl_versions arg)) ->
       LanguageMeta__call__ Sub [v]
       = Ok {| lang_type := Sub; versions := [v] |}.
Proof.
  intros Hfin Hreg.
  destruct (decorator_class_ok _ _ _ _ Hfin Hreg) as [Hok _].
  unfold LanguageMeta__call__Language in Hreg. injection Hreg as HSub _.
  assert (cls_versions Sub = sorted (default [] (decl_versions arg))) as Hvs
    by (by rewrite <- HSub).
  split_and!.
  - rewrite Hvs. apply sorted_perm.
  - by apply class_ok_ascending.
  - intros v Hv. unfold LanguageMeta__call__, Language__init__.
    cbn [forallb].
    assert (py_in v (cls_versions Sub) = true) as ->; [|done].
    apply existsb_exists. exists v. split.
    + rewrite Hvs. eapply Permutation_in; [|exact Hv].
      symmetry. apply sorted_perm.
    + apply operator_eq_refl. rewrite forallb_forall in Hfin. by apply Hfin.
Qed.

(** The class made from the declaration of [C++] has the versions 11, 14
    and 17, and [CPP(14)] is [C++ 14]. *)
Lemma X18_witness :
  LanguageMeta__call__Language [Python] [CPP_decl] = Ok (CPP, [Python; CPP])
  /\ ascending (cls_versions CPP)
  /\ LanguageMeta__call__ CPP [14]%py
     = Ok {| lang_type := CPP; versions := [14]%py |}.
Proof.
  pose proof (X18_declared_versions_construct [Python] CPP_decl CPP
                [Python; CPP] eq_refl eq_refl) as (_ & Hasc & Hcall).
  split; [reflexivity|]. split; [exact Hasc|].
  apply Hcall. right. by left.
Defined.

(** X19.  A relational operator on a class is the operator on its
    default instance: with a number as limit it keeps the versions of the
    class for which the comparison holds and raises
    [ValueError('No versions left')] when there is none.  On a class
    without versions every operator raises this error, whatever the
    limit, a number or an instance. *)
Theorem X19_operators_on_a_class cls op :
  (class_ok cls ->
   forall limit : number,
     LanguageMeta_op op cls limit =
       let kept := List.filter (holds op limit) (cls_versions cls) in
       if is_nil kept then Raise ValueError_no_versions_left
       else Ok {| lang_type := cls; versions := kept |})
  /\ (cls_versions cls = [] ->
      forall limit : limit,
        LanguageMeta_op op cls limit = Raise ValueError_no_versions_left).
Proof.
  split.
  - intros Hcls limit. rewrite LanguageMeta_op_eq.
    change (LanguageMeta__call__ cls [])
      with (Ok {| lang_type := cls; versions := cls_versions cls |}).
    cbn [mbind result_bind].
    by rewrite (Language_op_number_spec cls [] _ op limit Hcls eq_refl).
  - intros Hnone limit. rewrite LanguageMeta_op_eq.
    change (LanguageMeta__call__ cls [])
      with (Ok {| lang_type := cls; versions := cls_versions cls |}).
    cbn [mbind result_bind]. rewrite Language_op_eq.
    unfold limit_versions, limit_versions_with. cbn [versions].
    rewrite Hnone. by destruct (limit_is_int limit).
Qed.

(** [Python >= 3.5] is [Python 3.5, 3.6]; [Plain], declared without
    versions, raises for [Plain <= 1]. *)
Lemma X19_witness :
  class_ok Python
  /\ LanguageMeta_op op_ge Python 3.5%py
     = Ok {| lang_type := Python; versions := [3.5; 3.6]%py |}
  /\ LanguageMeta_op op_le Plain 1%py = Raise ValueError_no_versions_left.
Proof.
  split; [exact Python_class_ok|]. split.
  - exact (proj1 (X19_operators_on_a_class Python op_ge) Python_class_ok
             3.5%py).
  - exact (proj2 (X19_operators_on_a_class Plain op_le) eq_refl 1%py).
Defined.
